(** * cyber-net-watch: the probing and aggregation engine

    A shallow embedding of the stateful core of the network ping monitor:
    - [PingPanel] : the prober [performPing] and the per-target tick handler
      (src/components/PingPanel.tsx);
    - [Index] : what the three variants of the page component share
      ([addPanel], [removePanel], [getOverallStatus]);
    - [IndexNotify] : the variant whose [handleStatusChange] raises the
      "Connection Lost" toast;
    - [IndexConnectivity] : the variant whose [handleStatusChange] keeps the
      packet-loss window of the local gateway;
    - [App] : the page together with its mounted panels;
    - [IndexPlain] : the earliest variant of the page, without the sound
      switch;
    - [AddPanelButton] : the add-panel dialog;
    - [PanelLogs] : the copied and the exported log of a panel.

    React state is modelled by explicit state passing: a [useState] cell is a
    record field, a state updater is a function on the record, and the toasts a
    handler raises are returned next to the new state.  JavaScript numbers are
    modelled by exact rationals ([Q]) where the code divides and by [Z]
    elsewhere. *)

From Stdlib Require Import ZArith QArith Qround Lqa Lia Bool List Ascii String.
From Stdlib Require Import Floats Uint63.
From stdpp Require Import gmap strings list pretty.

Local Open Scope string_scope.
Local Open Scope Z_scope.
Local Open Scope list_scope.

(** ** JavaScript helpers *)

(** [Math.round]: the nearest integer, halves going up. *)
Definition Math_round (x : Q) : Z := Qfloor (x + (1 # 2))%Q.

(** [a < b] on numbers. *)
Definition Qlt_bool (a b : Q) : bool := negb (Qle_bool b a).

(** [arr.slice(0, n)] for [n >= 0]. *)
Definition slice_first {A} (n : nat) (l : list A) : list A := firstn n l.
Arguments slice_first : simpl never.

(** [arr.slice(-n)] for [n > 0]: the last [n] elements (all of them when the
    array is shorter). *)
Definition slice_last {A} (n : nat) (l : list A) : list A :=
  skipn (length l - n)%nat l.
Arguments slice_last : simpl never.

(** [x.toFixed(1)] for [x >= 0]: the integer [n] for which [n / 10] is closest
    to [x] (the larger one on a tie), printed with one decimal. *)
Definition toFixed1 (x : Q) : string :=
  let n := Qfloor (x * 10 + (1 # 2))%Q in
  pretty (n / 10) +:+ "." +:+ pretty (n mod 10).

(** What a [throw] or a rejected promise carries: an [Error] object (with its
    [name] and [message]) or any other value. *)
Inductive JsValue : Type :=
  | JsError (name message : string)
  | JsOther.

(** The status a panel reports to the page. *)
Inductive PanelStatus : Type := online | offline | error.

#[global] Instance PanelStatus_eq_dec : EqDecision PanelStatus.
Proof. solve_decision. Defined.

Definition status_text (s : PanelStatus) : string :=
  match s with online => "online" | offline => "offline" | error => "error" end.

(** A toast handed to the presentation layer. *)
Record Toast : Type := mkToast {
  toast_title : string;
  toast_description : string;
  toast_variant : string
}.

(** ** PingPanel.tsx *)

Module PingPanel.

Inductive PingStatus : Type := ping_success | ping_error | ping_timeout.

#[global] Instance PingStatus_eq_dec : EqDecision PingStatus.
Proof. solve_decision. Defined.

(** [interface PingResult]; [error_msg] is the source's [error] field. *)
Record PingResult : Type := mkPingResult {
  timestamp : Z;
  status : PingStatus;
  responseTime : option Z;
  error_msg : option string
}.

(** *** The prober's surroundings *)

(** What the network does with one [fetch]: resolve or reject after so many
    milliseconds, or stay pending. *)
Inductive FetchBehaviour : Type :=
  | NetResolve (after_ms : Q)
  | NetReject (after_ms : Q) (reason : JsValue)
  | NetPending.

(** Everything one call of [performPing] reads from its environment. *)
Record ProbeEnv : Type := mkProbeEnv {
  random1 : Q;            (* first [Math.random()] *)
  random2 : Q;            (* second [Math.random()] *)
  timer_late : Q;         (* the measured [performance.now() - start] of the
                             simulated branch minus the delay asked of
                             [setTimeout]; of either sign: timers work in
                             whole milliseconds and clocks are coarse *)
  net : FetchBehaviour;   (* the network, for the [fetch] branch *)
  abort_message : string; (* the message of the browser's AbortError *)
  date_now : Z            (* [new Date()] when the result is built *)
}.

(** The effects a probe performs, in order. *)
Inductive Effect : Type :=
  | Sleep (ms : Q)
  | Fetch (url : string) (abort_after_ms : Q).

Definition is_fetch (e : Effect) : bool :=
  match e with Fetch _ _ => true | Sleep _ => false end.

(** A computation that performs effects and completes normally or abruptly. *)
Inductive Completion (A : Type) : Type :=
  | Normal (a : A)
  | Throw (e : JsValue).
Arguments Normal {A} a.
Arguments Throw {A} e.

Definition Js (A : Type) : Type := (list Effect * Completion A)%type.

Definition ret {A} (a : A) : Js A := ([], Normal a).
Definition throw {A} (e : JsValue) : Js A := ([], Throw e).
Definition perform (e : Effect) : Js unit := ([e], Normal tt).

Definition bind {A B} (m : Js A) (k : A -> Js B) : Js B :=
  match m with
  | (tr, Normal a) => let '(tr', c) := k a in (tr ++ tr', c)
  | (tr, Throw e) => (tr, Throw e)
  end.

(** [try { m } catch (error) { h error }] *)
Definition try_catch {A} (m : Js A) (h : JsValue -> Js A) : Js A :=
  match m with
  | (tr, Normal a) => (tr, Normal a)
  | (tr, Throw e) => let '(tr', c) := h e in (tr ++ tr', c)
  end.

Notation "'let*' x ':=' m 'in' k" := (bind m (fun x => k))
  (at level 10, x binder, m at level 100, k at level 200).

(** *** The IPv4-literal test [/^\d+\.\d+\.\d+\.\d+$/] *)

Definition is_digit (c : ascii) : bool :=
  let n := nat_of_ascii c in (48 <=? n)%nat && (n <=? 57)%nat.

Fixpoint skip_digits (s : string) : string :=
  match s with
  | String c s' => if is_digit c then skip_digits s' else s
  | EmptyString => s
  end.

(** [\d+]: one or more digits; what follows them. *)
Definition digits1 (s : string) : option string :=
  match s with
  | String c s' => if is_digit c then Some (skip_digits s') else None
  | EmptyString => None
  end.

(** [\.]: a literal dot; what follows it. *)
Definition dot (s : string) : option string :=
  match s with
  | String "."%char s' => Some s'
  | _ => None
  end.

Definition matches_ipv4 (s : string) : bool :=
  let rest :=
    s1 ← digits1 s; s2 ← dot s1;
    s3 ← digits1 s2; s4 ← dot s3;
    s5 ← digits1 s4; s6 ← dot s5;
    digits1 s6 in
  match rest with
  | Some EmptyString => true
  | _ => false
  end.

(** *** performPing *)

(** [await new Promise(resolve => setTimeout(resolve, ms))] *)
Definition sleep (ms : Q) : Js unit := perform (Sleep ms).

(** [fetch(url, {signal})] with [setTimeout(() => controller.abort(), limit)]:
    the request settles by itself when the network answers before the limit,
    and is aborted at the limit otherwise.  Returns the time that passed. *)
Definition fetch_with_abort (env : ProbeEnv) (url : string) (limit : Q) : Js Q :=
  let* _ := perform (Fetch url limit) in
  match net env with
  | NetResolve t =>
      if Qlt_bool t limit then ret t
      else throw (JsError "AbortError" (abort_message env))
  | NetReject t reason =>
      if Qlt_bool t limit then throw reason
      else throw (JsError "AbortError" (abort_message env))
  | NetPending => throw (JsError "AbortError" (abort_message env))
  end.

(** [testUrl.startsWith('http') ? testUrl : `https://${testUrl}`] *)
Definition request_url (testUrl : string) : string :=
  if String.prefix "http" testUrl then testUrl else "https://" +:+ testUrl.

(** The body of the [try] block. *)
Definition performPing_try (env : ProbeEnv) (targetUrl : string) : Js PingResult :=
  let testUrl := targetUrl in
  if matches_ipv4 targetUrl then
    let delay := (random1 env * 100 + 10)%Q in
    let* _ := sleep delay in
    let responseTime := (delay + timer_late env)%Q in
    if Qlt_bool (random2 env) (5 # 100) then
      throw (JsError "Error" "Request timeout")
    else
      ret {| timestamp := date_now env;
             status := ping_success;
             responseTime := Some (Math_round responseTime);
             error_msg := None |}
  else
    let* responseTime := fetch_with_abort env (request_url testUrl) 5000 in
    ret {| timestamp := date_now env;
           status := ping_success;
           responseTime := Some (Math_round responseTime);
           error_msg := None |}.

(** The [catch (error)] block. *)
Definition performPing_catch (env : ProbeEnv) (err : JsValue) : Js PingResult :=
  ret {| timestamp := date_now env;
         status := match err with
                   | JsError name _ =>
                       if String.eqb name "AbortError" then ping_timeout
                       else ping_error
                   | JsOther => ping_error
                   end;
         responseTime := None;
         error_msg := match err with
                      | JsError _ message => Some message
                      | JsOther => Some "Unknown error"
                      end |}.

Definition performPing (env : ProbeEnv) (targetUrl : string) : Js PingResult :=
  try_catch (performPing_try env targetUrl) (performPing_catch env).

(** *** The component's state and its tick handler *)

Record Stats : Type := mkStats {
  sent : Z;
  received : Z;
  lost : Z;
  avgTime : Z
}.

(** The sound a failed probe plays. *)
Inductive Alert : Type := TimeoutAlert | ErrorAlert.

(** The [useState] cells of one panel.  [results_in_effect] is not a cell: it
    is the value of [results] in the render in which the interval effect last
    ran, which is what the interval callback reads when it names [results]
    ([results] is not among the effect's dependencies). *)
Record State : Type := mkState {
  target : string;
  title : string;
  isRunning : bool;
  interval : Z;
  results : list PingResult;
  currentStatus : PanelStatus;
  stats : Stats;
  soundEnabled : bool;
  results_in_effect : list PingResult
}.

(** The first render. *)
Definition mount (initialTarget initialTitle : string) : State :=
  {| target := initialTarget;
     title := initialTitle;
     isRunning := true;
     interval := 1000;
     results := [];
     currentStatus := offline;
     stats := {| sent := 0; received := 0; lost := 0; avgTime := 0 |};
     soundEnabled := true;
     results_in_effect := [] |}.

(** The effect runs again (one of its dependencies changed): the new interval
    callback closes over the current render. *)
Definition rerun_effect (st : State) : State :=
  {| target := target st; title := title st; isRunning := isRunning st;
     interval := interval st; results := results st;
     currentStatus := currentStatus st; stats := stats st;
     soundEnabled := soundEnabled st;
     results_in_effect := results st |}.

(** The settings input of the target: [setTarget(e.target.value)]. *)
Definition setTarget (s : string) (st : State) : State :=
  if String.eqb s (target st) then st
  else rerun_effect
         {| target := s; title := title st; isRunning := isRunning st;
            interval := interval st; results := results st;
            currentStatus := currentStatus st; stats := stats st;
            soundEnabled := soundEnabled st;
            results_in_effect := results_in_effect st |}.

(** [setResults(prev => [result, ...prev].slice(0, 100))] *)
Definition setResults_tick (result : PingResult) (prev : list PingResult)
  : list PingResult :=
  slice_first 100 (result :: prev).

(** The updater of [setStats]; [results] is the callback's view of the cell. *)
Definition setStats_tick (results : list PingResult) (result : PingResult)
    (prev : Stats) : Stats :=
  let sent := sent prev + 1 in
  let received := if decide (status result = ping_success)
                  then received prev + 1 else received prev in
  let lost := sent - received in
  let total :=
    fold_left (fun acc r => acc + default 0 (responseTime r))
      (filter (fun r => status r = ping_success) results) 0 in
  let avgTime := (inject_Z total / inject_Z (Z.max received 1))%Q in
  {| sent := sent; received := received; lost := lost;
     avgTime := Math_round avgTime |}.

Definition newStatus_of (result : PingResult) : PanelStatus :=
  match status result with
  | ping_success => online
  | ping_timeout => offline
  | ping_error => error
  end.

Definition alerts_of (globalSoundEnabled : bool) (st : State)
    (result : PingResult) : list Alert :=
  if globalSoundEnabled && soundEnabled st
     && negb (bool_decide (status result = ping_success))
  then match status result with
       | ping_timeout => [TimeoutAlert]
       | _ => [ErrorAlert]
       end
  else [].

(** The interval callback once [performPing] has resolved to [result]: the new
    state, the alerts played, and the status passed to [onStatusChange]. *)
Definition on_result (globalSoundEnabled : bool) (result : PingResult)
    (st : State) : State * list Alert * PanelStatus :=
  let newStatus := newStatus_of result in
  ({| target := target st; title := title st; isRunning := isRunning st;
      interval := interval st;
      results := setResults_tick result (results st);
      currentStatus := newStatus;
      stats := setStats_tick (results_in_effect st) result (stats st);
      soundEnabled := soundEnabled st;
      results_in_effect := results_in_effect st |},
   alerts_of globalSoundEnabled st result,
   newStatus).

(** One firing of the interval: there is an interval only while the panel runs
    and has a target; a probe that completed abruptly would end the callback
    before any update. *)
Definition tick (env : ProbeEnv) (globalSoundEnabled : bool) (st : State)
  : option (State * list Alert * PanelStatus) :=
  if isRunning st && negb (String.eqb (target st) "") then
    match performPing env (target st) with
    | (_, Normal result) => Some (on_result globalSoundEnabled result st)
    | (_, Throw _) => None
    end
  else None.

(** What happens to a mounted panel between two renders of interest. *)
Inductive Step : Type :=
  | Result (result : PingResult)   (* the interval fired and the probe gave [result] *)
  | Rerun.                         (* a dependency of the effect changed *)

Definition step (st : State) (s : Step) : State :=
  match s with
  | Result result => (on_result true result st).1.1
  | Rerun => rerun_effect st
  end.

Definition steps (st : State) (l : list Step) : State := fold_left step l st.

(** The probe results among a sequence of steps, in the order they came. *)
Definition delivered (l : list Step) : list PingResult :=
  omap (fun s => match s with Result r => Some r | Rerun => None end) l.

(** A successful probe that took [ms] milliseconds. *)
Definition ok (ms : Z) : PingResult :=
  {| timestamp := 0; status := ping_success; responseTime := Some ms;
     error_msg := None |}.

(** The mean of [responseTime] over the successes of a history, rounded; 0 when
    there is none. *)
Definition mean_success_time (history : list PingResult) : Z :=
  let successes := filter (fun r => status r = ping_success) history in
  let total :=
    fold_left (fun acc r => acc + default 0 (responseTime r)) successes 0 in
  match successes with
  | [] => 0
  | _ => Math_round (inject_Z total / inject_Z (Z.of_nat (length successes)))%Q
  end.

(** The pause button: [setIsRunning(!isRunning)]; [isRunning] is a dependency
    of the effect. *)
Definition togglePause (st : State) : State :=
  rerun_effect
    {| target := target st; title := title st;
       isRunning := negb (isRunning st);
       interval := interval st; results := results st;
       currentStatus := currentStatus st; stats := stats st;
       soundEnabled := soundEnabled st;
       results_in_effect := results_in_effect st |}.

(** A string of digits only. *)
Fixpoint all_digits (s : string) : bool :=
  match s with
  | String c s' => is_digit c && all_digits s'
  | EmptyString => true
  end.

(** One or more digits and nothing else: what [^\d+$] accepts. *)
Definition digit_run (s : string) : Prop := s <> "" /\ all_digits s = true.

End PingPanel.

(** ** The page component: what its three variants share *)

Module Index.

(** [interface Panel]: what the page records about a panel when it is added. *)
Record Panel : Type := mkPanel {
  p_id : string;
  p_target : string;
  p_title : string
}.

(** [panels.find(p => p.id === id)] *)
Definition find_panel (id : string) (panels : list Panel) : option Panel :=
  find (fun p => String.eqb (p_id p) id) panels.

(** [setPanels(prev => [...prev, newPanel])] of [addPanel]; [now] is
    [Date.now().toString()]. *)
Definition addPanel_panels (now target title : string) (prev : list Panel)
  : list Panel :=
  prev ++ [{| p_id := now; p_target := target; p_title := title |}].

(** [setPanels(prev => prev.filter(panel => panel.id !== id))] of [removePanel] *)
Definition removePanel_panels (id : string) (prev : list Panel) : list Panel :=
  filter (fun panel => p_id panel <> id) prev.

(** [setPanelStatuses] of [removePanel]: a copy without the key [id]. *)
Definition removePanel_statuses (id : string) (prev : gmap string PanelStatus)
  : gmap string PanelStatus :=
  delete id prev.

(** What [getOverallStatus] returns. *)
Inductive OverallStatus : Type :=
  | overall_error | overall_offline | overall_online | overall_unknown.

Definition getOverallStatus (panelStatuses : gmap string PanelStatus)
  : OverallStatus :=
  let statuses := (map_to_list panelStatuses).*2 in
  if existsb (fun s => bool_decide (s = error)) statuses then overall_error
  else if existsb (fun s => bool_decide (s = offline)) statuses then overall_offline
  else if forallb (fun s => bool_decide (s = online)) statuses then overall_online
  else overall_unknown.

End Index.

(** ** The page component with the "Connection Lost" toast *)

Module IndexNotify.
Import Index.

Record State : Type := mkState {
  panels : list Panel;
  panelStatuses : gmap string PanelStatus;
  globalSoundEnabled : bool
}.

Definition init : State :=
  {| panels := [ {| p_id := "1"; p_target := "192.168.1.1"; p_title := "Local Gateway" |};
                 {| p_id := "2"; p_target := "8.8.8.8"; p_title := "Google DNS" |} ];
     panelStatuses := ∅;
     globalSoundEnabled := true |}.

Definition addPanel (now target title : string) (st : State) : State :=
  {| panels := addPanel_panels now target title (panels st);
     panelStatuses := panelStatuses st;
     globalSoundEnabled := globalSoundEnabled st |}.

Definition removePanel (id : string) (st : State) : State :=
  {| panels := removePanel_panels id (panels st);
     panelStatuses := removePanel_statuses id (panelStatuses st);
     globalSoundEnabled := globalSoundEnabled st |}.

Definition connection_lost (panel : Panel) (status : PanelStatus) : Toast :=
  {| toast_title := "Connection Lost";
     toast_description :=
       p_title panel +:+ " (" +:+ p_target panel +:+ ") is " +:+ status_text status;
     toast_variant := "destructive" |}.

(** The toasts raised inside the updater of [setPanelStatuses]. *)
Definition handleStatusChange_toasts (id : string) (status : PanelStatus)
    (st : State) : list Toast :=
  match panelStatuses st !! id with
  | Some oldStatus =>
      if bool_decide (oldStatus <> status) then
        match find_panel id (panels st) with
        | Some panel =>
            if bool_decide (status = offline) || bool_decide (status = error) then
              if globalSoundEnabled st then [connection_lost panel status]
              else []
            else []
        | None => []
        end
      else []
  | None => []
  end.

Definition handleStatusChange (id : string) (status : PanelStatus) (st : State)
  : State * list Toast :=
  ({| panels := panels st;
      panelStatuses := <[id := status]> (panelStatuses st);
      globalSoundEnabled := globalSoundEnabled st |},
   handleStatusChange_toasts id status st).

End IndexNotify.

(** ** The page component with the internet-connectivity window *)

Module IndexConnectivity.
Import Index.

Record State : Type := mkState {
  panels : list Panel;
  panelStatuses : gmap string PanelStatus;
  globalSoundEnabled : bool;
  internetConnected : option bool;      (* [boolean | null] *)
  packetLossHistory : list Z
}.

Definition init : State :=
  {| panels := [ {| p_id := "1"; p_target := "192.168.1.1"; p_title := "Local Gateway" |} ];
     panelStatuses := ∅;
     globalSoundEnabled := true;
     internetConnected := None;
     packetLossHistory := [] |}.

Definition addPanel (now target title : string) (st : State) : State :=
  {| panels := addPanel_panels now target title (panels st);
     panelStatuses := panelStatuses st;
     globalSoundEnabled := globalSoundEnabled st;
     internetConnected := internetConnected st;
     packetLossHistory := packetLossHistory st |}.

Definition removePanel (id : string) (st : State) : State :=
  {| panels := removePanel_panels id (panels st);
     panelStatuses := removePanel_statuses id (panelStatuses st);
     globalSoundEnabled := globalSoundEnabled st;
     internetConnected := internetConnected st;
     packetLossHistory := packetLossHistory st |}.

(** The header button: [setGlobalSoundEnabled(!globalSoundEnabled)]. *)
Definition toggleSound (st : State) : State :=
  {| panels := panels st;
     panelStatuses := panelStatuses st;
     globalSoundEnabled := negb (globalSoundEnabled st);
     internetConnected := internetConnected st;
     packetLossHistory := packetLossHistory st |}.

(** [status === 'online' ? 0 : 1] *)
Definition sample (status : PanelStatus) : Z :=
  if bool_decide (status = online) then 0 else 1.

(** [[...prevHistory, sample].slice(-20)] *)
Definition newHistory_of (prevHistory : list Z) (status : PanelStatus) : list Z :=
  slice_last 20 (prevHistory ++ [sample status]).

Definition totalPings_of (newHistory : list Z) : Z := Z.of_nat (length newHistory).

(** [newHistory.reduce((sum, val) => sum + val, 0)] *)
Definition lostPings_of (newHistory : list Z) : Z :=
  fold_left (fun sum val => sum + val) newHistory 0.

Definition packetLossPercentage_of (newHistory : list Z) : Q :=
  if 0 <? totalPings_of newHistory
  then (inject_Z (lostPings_of newHistory) / inject_Z (totalPings_of newHistory) * 100)%Q
  else 0%Q.

(** [packetLossPercentage < 10] *)
Definition isConnected_of (newHistory : list Z) : bool :=
  Qlt_bool (packetLossPercentage_of newHistory) 10.

Definition connectivity_toast (isConnected : bool) (packetLossPercentage : Q)
  : Toast :=
  {| toast_title := if isConnected then "Internet Connected"
                    else "Internet Disconnected";
     toast_description := "Packet loss: " +:+ toFixed1 packetLossPercentage +:+ "%";
     toast_variant := if isConnected then "default" else "destructive" |}.

(** Whether the event comes from a panel the page recorded with the gateway's
    address: [panel && panel.target === '192.168.1.1']. *)
Definition tracked (id : string) (st : State) : bool :=
  match find_panel id (panels st) with
  | Some panel => String.eqb (p_target panel) "192.168.1.1"
  | None => false
  end.

Definition handleStatusChange (id : string) (status : PanelStatus) (st : State)
  : State * list Toast :=
  let newStatus := <[id := status]> (panelStatuses st) in
  if tracked id st then
    let newHistory := newHistory_of (packetLossHistory st) status in
    let totalPings := totalPings_of newHistory in
    let packetLossPercentage := packetLossPercentage_of newHistory in
    if 10 <=? totalPings then
      let wasConnected := internetConnected st in
      let isConnected := isConnected_of newHistory in
      let toasts :=
        match wasConnected with
        | Some was =>
            if negb (eqb was isConnected) then
              if globalSoundEnabled st
              then [connectivity_toast isConnected packetLossPercentage]
              else []
            else []
        | None => []
        end in
      ({| panels := panels st;
          panelStatuses := newStatus;
          globalSoundEnabled := globalSoundEnabled st;
          internetConnected := Some isConnected;
          packetLossHistory := newHistory |},
       toasts)
    else
      ({| panels := panels st;
          panelStatuses := newStatus;
          globalSoundEnabled := globalSoundEnabled st;
          internetConnected := internetConnected st;
          packetLossHistory := newHistory |},
       [])
  else
    ({| panels := panels st;
        panelStatuses := newStatus;
        globalSoundEnabled := globalSoundEnabled st;
        internetConnected := internetConnected st;
        packetLossHistory := packetLossHistory st |},
     []).

(** [handleStatusChange] above is the handler of the current render.  The
    handler is memoised on [panels], [globalSoundEnabled] and
    [internetConnected], and a panel's interval callback keeps the handler it
    was set up with across its [await]: the handler that runs can have been
    created by an earlier render.  What it then reads from its closure is
    kept here. *)
Record Closure : Type := mkClosure {
  c_panels : list Panel;
  c_globalSoundEnabled : bool;
  c_internetConnected : option bool
}.

(** The closure of the handler the current render creates. *)
Definition captured (st : State) : Closure :=
  {| c_panels := panels st;
     c_globalSoundEnabled := globalSoundEnabled st;
     c_internetConnected := internetConnected st |}.

(** [panel && panel.target === '192.168.1.1'] on the closure's [panels]. *)
Definition tracked_by (c : Closure) (id : string) : bool :=
  match find_panel id (c_panels c) with
  | Some panel => String.eqb (p_target panel) "192.168.1.1"
  | None => false
  end.

(** The handler created with closure [c], run on the page as it is now:
    [prev] and [prevHistory] are the current cells (the updaters receive
    them), while [panels], [internetConnected] and [globalSoundEnabled] are
    the closure's. *)
Definition handleStatusChange_captured (c : Closure) (id : string)
    (status : PanelStatus) (st : State) : State * list Toast :=
  let newStatus := <[id := status]> (panelStatuses st) in
  if tracked_by c id then
    let newHistory := newHistory_of (packetLossHistory st) status in
    let totalPings := totalPings_of newHistory in
    let packetLossPercentage := packetLossPercentage_of newHistory in
    if 10 <=? totalPings then
      let wasConnected := c_internetConnected c in
      let isConnected := isConnected_of newHistory in
      let toasts :=
        match wasConnected with
        | Some was =>
            if negb (eqb was isConnected) then
              if c_globalSoundEnabled c
              then [connectivity_toast isConnected packetLossPercentage]
              else []
            else []
        | None => []
        end in
      ({| panels := panels st;
          panelStatuses := newStatus;
          globalSoundEnabled := globalSoundEnabled st;
          internetConnected := Some isConnected;
          packetLossHistory := newHistory |},
       toasts)
    else
      ({| panels := panels st;
          panelStatuses := newStatus;
          globalSoundEnabled := globalSoundEnabled st;
          internetConnected := internetConnected st;
          packetLossHistory := newHistory |},
       [])
  else
    ({| panels := panels st;
        panelStatuses := newStatus;
        globalSoundEnabled := globalSoundEnabled st;
        internetConnected := internetConnected st;
        packetLossHistory := packetLossHistory st |},
     []).

(** The number of lost samples in a window. *)
Definition losses (h : list Z) : nat := length (filter (fun x => x = 1) h).

(** What can happen to the page. *)
Inductive Event : Type :=
  | AddPanel (now target title : string)
  | RemovePanel (id : string)
  | StatusChange (id : string) (status : PanelStatus)
  | ToggleSound.

Definition step (st : State) (ev : Event) : State * list Toast :=
  match ev with
  | AddPanel now target title => (addPanel now target title st, [])
  | RemovePanel id => (removePanel id st, [])
  | StatusChange id status => handleStatusChange id status st
  | ToggleSound => (toggleSound st, [])
  end.

(** The state after a sequence of events, and every toast raised on the way. *)
Definition run (st : State) (evs : list Event) : State * list Toast :=
  fold_left (fun acc ev => let '(st', ts) := step acc.1 ev in (st', acc.2 ++ ts))
    evs (st, []).

(** What every reachable state of the page satisfies. *)
Definition window_ok (st : State) : Prop :=
  let h := packetLossHistory st in
  Forall (fun x => x = 0 \/ x = 1) h /\
  (length h <= 20)%nat /\
  ((length h < 10)%nat -> internetConnected st = None) /\
  ((10 <= length h)%nat -> internetConnected st = Some (isConnected_of h)).

(** The percentage as JavaScript computes it, in binary64 arithmetic, for a
    window of [totalPings] samples of which [lostPings] are lost. *)
Definition js_number (z : Z) : float := PrimFloat.of_uint63 (Uint63.of_Z z).

Definition packetLossPercentage_double (lostPings totalPings : Z) : float :=
  (js_number lostPings / js_number totalPings * js_number 100)%float.

(** Whether, for every window of 1 to 20 samples and every number of losses,
    the test [packetLossPercentage < 10] has the same outcome in binary64 as
    in exact arithmetic. *)
Definition threshold_agrees : bool :=
  forallb (fun totalPings =>
    forallb (fun lostPings =>
      eqb (PrimFloat.ltb (packetLossPercentage_double lostPings totalPings)
             (js_number 10))
          (Qlt_bool (inject_Z lostPings / inject_Z totalPings * 100)%Q 10))
      (map Z.of_nat (seq 0 (S (Z.to_nat totalPings)))))
    (map Z.of_nat (seq 1 20)).

(** The exact value of a finite, non-negative binary64 number. *)
Definition exact_value (f : float) : Q :=
  let '(m, e) := PrimFloat.frshiftexp f in
  let mantissa := Uint63.to_Z (PrimFloat.normfr_mantissa m) in
  let exponent := Uint63.to_Z e - FloatOps.shift - 53 in
  if 0 <=? exponent then inject_Z (mantissa * 2 ^ exponent)
  else (mantissa # Pos.pow 2 (Z.to_pos (- exponent))).

(** The number of tenths [toFixed(1)] prints. *)
Definition tenths (x : Q) : Z := Qfloor (x * 10 + (1 # 2))%Q.

(** Whether, for every window of 1 to 20 samples and every number of losses,
    [toFixed(1)] of the binary64 percentage prints the tenths of the exact
    percentage. *)
Definition tenths_agree : bool :=
  forallb (fun totalPings =>
    forallb (fun lostPings =>
      Z.eqb (tenths (exact_value (packetLossPercentage_double lostPings totalPings)))
            (tenths (inject_Z lostPings / inject_Z totalPings * 100)%Q))
      (map Z.of_nat (seq 0 (S (Z.to_nat totalPings)))))
    (map Z.of_nat (seq 1 20)).

(** The panel with id "1" reports these statuses, one after the other. *)
Definition gateway_reports (statuses : list PanelStatus) : list Event :=
  map (StatusChange "1") statuses.

(** The page after ten [online] reports of the local gateway. *)
Definition after_ten_online : State :=
  (run init (gateway_reports (repeat online 10))).1.

(** The same with the sound switched off first, and one [offline] report
    more. *)
Definition muted_before_flip : State :=
  (run init (ToggleSound :: gateway_reports (repeat online 10 ++ [offline]))).1.

(** The page after the gateway's report that takes the verdict from
    "connected" to "disconnected", and the page just before it. *)
Definition before_flip : State :=
  (run init (gateway_reports (repeat online 10 ++ [offline]))).1.

Definition after_flip : State :=
  (handleStatusChange "1" offline before_flip).1.

End IndexConnectivity.

(** ** The page together with its mounted panels *)

Module App.

#[global] Instance Panel_eq_dec : EqDecision Index.Panel.
Proof. solve_decision. Defined.

(** The page renders one [PingPanel] per entry of [panels], keyed by its id;
    each keeps its own state, which the page never reads.  Ids are taken to
    be distinct: two panels added within the same millisecond share an id,
    and are kept here as the one panel mounted first. *)
Record State : Type := mkState {
  index : IndexConnectivity.State;
  mounted : gmap string PingPanel.State
}.

Definition init : State :=
  {| index := IndexConnectivity.init;
     mounted := {[ "1" := PingPanel.mount "192.168.1.1" "Local Gateway" ]} |}.

(** [handleStatusChange] is memoised on [panels], [globalSoundEnabled] and
    [internetConnected]; when one of them changes every panel receives a new
    [onStatusChange] (and [globalSoundEnabled]) and runs its effect again. *)
Definition props_changed (old new : IndexConnectivity.State) : bool :=
  negb (bool_decide (IndexConnectivity.panels old = IndexConnectivity.panels new)
        && bool_decide (IndexConnectivity.globalSoundEnabled old
                        = IndexConnectivity.globalSoundEnabled new)
        && bool_decide (IndexConnectivity.internetConnected old
                        = IndexConnectivity.internetConnected new)).

Definition rerender (old new : IndexConnectivity.State)
    (m : gmap string PingPanel.State) : gmap string PingPanel.State :=
  if props_changed old new then PingPanel.rerun_effect <$> m else m.

Definition addPanel (now target title : string) (app : State) : State :=
  let index' := IndexConnectivity.addPanel now target title (index app) in
  let m := match mounted app !! now with
           | Some _ => mounted app
           | None => <[now := PingPanel.mount target title]> (mounted app)
           end in
  {| index := index'; mounted := rerender (index app) index' m |}.

Definition removePanel (id : string) (app : State) : State :=
  let index' := IndexConnectivity.removePanel id (index app) in
  {| index := index';
     mounted := rerender (index app) index' (delete id (mounted app)) |}.

Definition toggleSound (app : State) : State :=
  let index' := IndexConnectivity.toggleSound (index app) in
  {| index := index'; mounted := rerender (index app) index' (mounted app) |}.

(** The user edits the target in the settings of panel [id]. *)
Definition editTarget (id s : string) (app : State) : State :=
  {| index := index app;
     mounted := alter (PingPanel.setTarget s) id (mounted app) |}.

(** The interval of panel [id] fires: probe, update the panel, report the
    status to the page.  The three are taken as one step, with the handler
    of the current render: a probe still in flight when the page changes (the
    panel removed, the verdict flipped) reports through the handler it was
    launched with, which [IndexConnectivity.handleStatusChange_captured]
    describes and this step does not. *)
Definition tick (id : string) (env : PingPanel.ProbeEnv) (app : State)
  : State * list Toast :=
  match mounted app !! id with
  | Some ps =>
      match PingPanel.tick env (IndexConnectivity.globalSoundEnabled (index app)) ps with
      | Some (ps', _, newStatus) =>
          let '(index', toasts) :=
            IndexConnectivity.handleStatusChange id newStatus (index app) in
          ({| index := index';
              mounted := rerender (index app) index' (<[id := ps']> (mounted app)) |},
           toasts)
      | None => (app, [])
      end
  | None => (app, [])
  end.

Inductive Event : Type :=
  | AddPanel (now target title : string)
  | RemovePanel (id : string)
  | EditTarget (id s : string)
  | Tick (id : string) (env : PingPanel.ProbeEnv)
  | ToggleSound.

Definition step (app : State) (ev : Event) : State * list Toast :=
  match ev with
  | AddPanel now target title => (addPanel now target title app, [])
  | RemovePanel id => (removePanel id app, [])
  | EditTarget id s => (editTarget id s app, [])
  | Tick id env => tick id env app
  | ToggleSound => (toggleSound app, [])
  end.

Definition run (app : State) (evs : list Event) : State * list Toast :=
  fold_left (fun acc ev => let '(app', ts) := step acc.1 ev in (app', acc.2 ++ ts))
    evs (app, []).

(** An environment in which the simulated probe succeeds after 60 ms, and any
    fetch is answered after 80 ms. *)
Definition calm : PingPanel.ProbeEnv :=
  {| PingPanel.random1 := 1 # 2;
     PingPanel.random2 := 1 # 2;
     PingPanel.timer_late := 0;
     PingPanel.net := PingPanel.NetResolve 80;
     PingPanel.abort_message := "The user aborted a request.";
     PingPanel.date_now := 0 |}.

(** The first panel after the user replaced its target by a hostname. *)
Definition edited_gateway : State :=
  (run init [EditTarget "1" "example.org"]).1.

(** A second panel added with the gateway's address. *)
Definition two_gateways : State :=
  (run init [AddPanel "1700000000000" "192.168.1.1" "Router"]).1.

End App.

(** ** The page component without the sound switch (the earliest variant) *)

Module IndexPlain.
Import Index.

Record State : Type := mkState {
  panels : list Panel;
  panelStatuses : gmap string PanelStatus
}.

(** The toasts raised inside the updater of [setPanelStatuses]. *)
Definition handleStatusChange_toasts (id : string) (status : PanelStatus)
    (st : State) : list Toast :=
  match panelStatuses st !! id with
  | Some oldStatus =>
      if bool_decide (oldStatus <> status) then
        match find_panel id (panels st) with
        | Some panel =>
            if bool_decide (status = offline) || bool_decide (status = error)
            then [IndexNotify.connection_lost panel status]
            else []
        | None => []
        end
      else []
  | None => []
  end.

Definition handleStatusChange (id : string) (status : PanelStatus) (st : State)
  : State * list Toast :=
  ({| panels := panels st;
      panelStatuses := <[id := status]> (panelStatuses st) |},
   handleStatusChange_toasts id status st).

(** The same page seen by the variant with the sound switch. *)
Definition with_sound (globalSoundEnabled : bool) (st : State)
  : IndexNotify.State :=
  {| IndexNotify.panels := panels st;
     IndexNotify.panelStatuses := panelStatuses st;
     IndexNotify.globalSoundEnabled := globalSoundEnabled |}.

End IndexPlain.

(** ** AddPanelButton.tsx *)

Module AddPanelButton.

(** The [useState] cells of the dialog. *)
Record State : Type := mkState {
  isOpen : bool;
  target : string;
  title : string
}.

Definition truthy (s : string) : bool := negb (String.eqb s "").

(** [handleSubmit]: the new state and the arguments of [onAddPanel] when it is
    called. *)
Definition handleSubmit (st : State) : State * option (string * string) :=
  if truthy (target st) && truthy (title st) then
    ({| isOpen := false; target := ""; title := "" |},
     Some (target st, title st))
  else (st, None).

(** [presets], as (target, title). *)
Definition presets : list (string * string) :=
  [ ("1.1.1.1", "Cloudflare DNS");
    ("8.8.4.4", "Google DNS Alt");
    ("github.com", "GitHub");
    ("google.com", "Google");
    ("192.168.1.1", "Local Router");
    ("127.0.0.1", "Localhost") ].

(** A click on a preset button: [setTarget(preset.target); setTitle(preset.title)]. *)
Definition choosePreset (preset : string * string) (st : State) : State :=
  {| isOpen := isOpen st; target := preset.1; title := preset.2 |}.

End AddPanelButton.

(** ** The log export and copy of a panel *)

Module PanelLogs.
Import PingPanel.

(** [`${n}`] for an optional number or string. *)
Definition show_number (n : option Z) : string :=
  match n with Some z => pretty z | None => "undefined" end.

Definition show_string (s : option string) : string :=
  match s with Some x => x | None => "undefined" end.

(** [str.replace(/[^a-z0-9]/gi, '_')] *)
Definition is_alnum (c : ascii) : bool :=
  let n := nat_of_ascii c in
  ((48 <=? n) && (n <=? 57) || (65 <=? n) && (n <=? 90)
   || (97 <=? n) && (n <=? 122))%nat.

Fixpoint replace_non_alnum (s : string) : string :=
  match s with
  | String c s' => String (if is_alnum c then c else "_"%char) (replace_non_alnum s')
  | EmptyString => EmptyString
  end.

(** [str.replace(/:/g, '-')] *)
Fixpoint replace_colons (s : string) : string :=
  match s with
  | String c s' =>
      String (if Ascii.eqb c ":"%char then "-"%char else c) (replace_colons s')
  | EmptyString => EmptyString
  end.

(** Every character of a string passes a test. *)
Fixpoint string_forall (f : ascii -> bool) (s : string) : bool :=
  match s with
  | String c s' => f c && string_forall f s'
  | EmptyString => true
  end.

(** Letters, digits, and the three marks a file name is built with. *)
Definition file_char (c : ascii) : bool :=
  is_alnum c || Ascii.eqb c "_"%char || Ascii.eqb c "-"%char
  || Ascii.eqb c "."%char.

(** The characters of an ISO 8601 instant such as 2024-05-01T10:20:30.123Z. *)
Definition iso_char (c : ascii) : bool :=
  is_alnum c || Ascii.eqb c "-"%char || Ascii.eqb c ":"%char
  || Ascii.eqb c "."%char.

(** [new Date().toISOString().slice(0, 19).replace(/:/g, '-')] *)
Definition file_timestamp (toISOString : string) : string :=
  replace_colons (String.substring 0 19 toISOString).

Section WithLocale.
(** [Date.prototype.toLocaleString] of the browser. *)
Variable toLocaleString : Z -> string.

(** One line of [copyLogs]. *)
Definition copy_line (target : string) (result : PingResult) : string :=
  let text :=
    match status result with
    | ping_success => "time=" +:+ show_number (responseTime result) +:+ "ms"
    | ping_timeout => "Request timeout"
    | ping_error => show_string (error_msg result)
    end in
  "[" +:+ toLocaleString (timestamp result) +:+ "] PING " +:+ target +:+ ": " +:+ text.

(** One line of the detailed log of [exportLogs]. *)
Definition export_line (target : string) (result : PingResult) : string :=
  let text :=
    match status result with
    | ping_success => "SUCCESS - time=" +:+ show_number (responseTime result) +:+ "ms"
    | ping_timeout => "TIMEOUT - Request timeout"
    | ping_error => "ERROR - " +:+ show_string (error_msg result)
    end in
  "[" +:+ toLocaleString (timestamp result) +:+ "] PING " +:+ target +:+ ": " +:+ text.

(** The lines [copyLogs] joins and writes to the clipboard. *)
Definition copyLogs_lines (st : State) : list string :=
  map (copy_line (target st)) (results st).

(** [results.map(...).reverse()]: the detailed log of [exportLogs]. *)
Definition export_detail (st : State) : list string :=
  rev (map (export_line (target st)) (results st)).

(** The file name of [exportLogs]; [toISOString] is the ISO rendering of
    [new Date()]. *)
Definition exportLogs_fileName (toISOString : string) (st : State) : string :=
  replace_non_alnum (title st) +:+ "-ping-logs-"
  +:+ file_timestamp toISOString +:+ ".txt".

End WithLocale.

End PanelLogs.

(** * Properties *)

(** ** Numbers *)

Lemma Qlt_bool_true (a b : Q) : Qlt_bool a b = true <-> (a < b)%Q.
Proof.
  unfold Qlt_bool. rewrite negb_true_iff, <- not_true_iff_false, Qle_bool_iff.
  split; [apply Qnot_le_lt | apply Qlt_not_le].
Qed.

Lemma Qlt_bool_false (a b : Q) : Qlt_bool a b = false <-> (b <= a)%Q.
Proof.
  unfold Qlt_bool. rewrite negb_false_iff. apply Qle_bool_iff.
Qed.

Lemma Math_round_inject_Z (z : Z) : Math_round (inject_Z z) = z.
Proof.
  unfold Math_round.
  assert (H : (inject_Z z <= inject_Z z + (1 # 2))%Q) by lra.
  assert (H' : (inject_Z z + (1 # 2) < inject_Z (z + 1))%Q).
  { rewrite inject_Z_plus. change (inject_Z 1) with 1%Q. lra. }
  apply Qfloor_resp_le in H. rewrite Qfloor_Z in H.
  pose proof (Qfloor_le (inject_Z z + (1 # 2))) as Hl.
  assert (Hlt : (inject_Z (Qfloor (inject_Z z + (1 # 2))) < inject_Z (z + 1))%Q)
    by (eapply Qle_lt_trans; eassumption).
  rewrite <- Zlt_Qlt in Hlt. lia.
Qed.

Lemma Math_round_zero_div (d : Q) : Math_round (inject_Z 0 / d) = 0.
Proof.
  unfold Math_round.
  assert (H : (inject_Z 0 / d + (1 # 2) == 1 # 2)%Q).
  { unfold Qdiv. change (inject_Z 0) with 0%Q. ring. }
  rewrite H. reflexivity.
Qed.

Lemma slice_first_length {A} (n : nat) (l : list A) :
  (length (slice_first n l) <= n)%nat.
Proof. unfold slice_first. rewrite length_take. lia. Qed.

Lemma slice_last_length {A} (n : nat) (l : list A) :
  length (slice_last n l) = Nat.min n (length l).
Proof. unfold slice_last. rewrite length_drop. lia. Qed.

(** ** The prober *)

Section ProberFacts.
Import PingPanel.

Lemma performPing_ipv4 (env : ProbeEnv) (targetUrl : string) :
  matches_ipv4 targetUrl = true ->
  performPing env targetUrl =
    ([Sleep (random1 env * 100 + 10)],
     Normal (if Qlt_bool (random2 env) (5 # 100)
             then {| timestamp := date_now env; status := ping_error;
                     responseTime := None;
                     error_msg := Some "Request timeout" |}
             else {| timestamp := date_now env; status := ping_success;
                     responseTime :=
                       Some (Math_round (random1 env * 100 + 10 + timer_late env));
                     error_msg := None |})).
Proof.
  intros Hm. unfold performPing, performPing_try. rewrite Hm.
  destruct (Qlt_bool (random2 env) (5 # 100)); reflexivity.
Qed.

Lemma performPing_fetch (env : ProbeEnv) (targetUrl : string) :
  matches_ipv4 targetUrl = false ->
  performPing env targetUrl =
    ([Fetch (request_url targetUrl) 5000],
     Normal
       match net env with
       | NetResolve t =>
           if Qlt_bool t 5000
           then {| timestamp := date_now env; status := ping_success;
                   responseTime := Some (Math_round t); error_msg := None |}
           else {| timestamp := date_now env; status := ping_timeout;
                   responseTime := None;
                   error_msg := Some (abort_message env) |}
       | NetReject t reason =>
           if Qlt_bool t 5000
           then {| timestamp := date_now env;
                   status := match reason with
                             | JsError name _ =>
                                 if String.eqb name "AbortError"
                                 then ping_timeout else ping_error
                             | JsOther => ping_error
                             end;
                   responseTime := None;
                   error_msg := match reason with
                                | JsError _ message => Some message
                                | JsOther => Some "Unknown error"
                                end |}
           else {| timestamp := date_now env; status := ping_timeout;
                   responseTime := None;
                   error_msg := Some (abort_message env) |}
       | NetPending =>
           {| timestamp := date_now env; status := ping_timeout;
              responseTime := None; error_msg := Some (abort_message env) |}
       end).
Proof.
  intros Hm. unfold performPing, performPing_try, fetch_with_abort, request_url.
  rewrite Hm.
  destruct (net env) as [t | t reason |]; simpl;
    try destruct (Qlt_bool t 5000); reflexivity.
Qed.

(** Every probe completes normally. *)
Lemma performPing_normal (env : ProbeEnv) (targetUrl : string) :
  exists tr result, performPing env targetUrl = (tr, Normal result).
Proof.
  destruct (matches_ipv4 targetUrl) eqn:Hm.
  - rewrite performPing_ipv4 by assumption. eauto.
  - rewrite performPing_fetch by assumption. eauto.
Qed.

(** C7: for every address and every way a probe can fail, [performPing]
    completes normally with a classified result (a response time exactly on
    success, a message exactly on failure) and never completes abruptly.  For
    a hostname it issues one request limited to 5000 ms: an answer within the
    limit gives [ping_success] with the rounded elapsed time, reaching the
    limit gives [ping_timeout], and a rejection by an [Error] that is not the
    abort gives [ping_error] with that error's message. *)
Theorem performPing_resolves_classified (env : ProbeEnv) (targetUrl : string) :
  exists tr result,
    performPing env targetUrl = (tr, Normal result) /\
    match status result with
    | ping_success => is_Some (responseTime result) /\ error_msg result = None
    | _ => responseTime result = None /\ is_Some (error_msg result)
    end /\
    (matches_ipv4 targetUrl = false ->
       tr = [Fetch (request_url targetUrl) 5000] /\
       (forall t, net env = NetResolve t -> (t < 5000)%Q ->
          status result = ping_success /\
          responseTime result = Some (Math_round t)) /\
       (net env = NetPending \/
        (exists t, net env = NetResolve t /\ (5000 <= t)%Q) \/
        (exists t reason, net env = NetReject t reason /\ (5000 <= t)%Q) ->
          status result = ping_timeout) /\
       (forall t name message,
          net env = NetReject t (JsError name message) -> (t < 5000)%Q ->
          name <> "AbortError" ->
          status result = ping_error /\ error_msg result = Some message)).
Proof.
  destruct (matches_ipv4 targetUrl) eqn:Hm.
  - rewrite performPing_ipv4 by assumption.
    eexists _, _. split; [reflexivity |]. split; [| discriminate].
    destruct (Qlt_bool (random2 env) (5 # 100)); simpl; eauto.
  - rewrite performPing_fetch by assumption.
    eexists _, _. split; [reflexivity |]. split.
    + destruct (net env) as [t | t reason |]; simpl;
        try destruct (Qlt_bool t 5000); simpl; eauto.
      destruct reason as [name message |]; simpl; eauto.
      destruct (String.eqb name "AbortError"); simpl; eauto.
    + intros _. split; [reflexivity |]. split; [| split].
      * intros t Hnet Ht. rewrite Hnet.
        apply Qlt_bool_true in Ht. rewrite Ht. simpl. auto.
      * intros [Hnet | [(t & Hnet & Ht) | (t & reason & Hnet & Ht)]];
          rewrite Hnet; [reflexivity | |];
          apply Qlt_bool_false in Ht; rewrite Ht; reflexivity.
      * intros t name message Hnet Ht Hname. rewrite Hnet.
        apply Qlt_bool_true in Ht. rewrite Ht. simpl.
        apply String.eqb_neq in Hname. rewrite Hname. auto.
Qed.

Lemma performPing_resolves_classified_witness :
  exists tr result,
    performPing
      {| random1 := 0; random2 := 0; timer_late := 0; net := NetPending;
         abort_message := "The user aborted a request."; date_now := 0 |}
      "github.com" = (tr, Normal result) /\
    status result = ping_timeout.
Proof.
  destruct (performPing_resolves_classified
              {| random1 := 0; random2 := 0; timer_late := 0; net := NetPending;
                 abort_message := "The user aborted a request."; date_now := 0 |}
              "github.com") as (tr & result & Heq & _ & Hhost).
  exists tr, result. split; [exact Heq |].
  destruct (Hhost eq_refl) as (_ & _ & Htimeout & _).
  apply Htimeout. left. reflexivity.
Defined.

(** C3: for an address that matches the IPv4-literal pattern the probe only
    sleeps (no request is made), for a duration in [10, 110) ms; when the
    second random draw is below 0.05 the probe fails, and the result is
    classified [ping_error] with the message "Request timeout" (not
    [ping_timeout]); otherwise it succeeds. *)
Theorem simulated_probe_failure_is_error (env : ProbeEnv) (targetUrl : string) :
  matches_ipv4 targetUrl = true ->
  (0 <= random1 env)%Q -> (random1 env < 1)%Q ->
  exists delay result,
    performPing env targetUrl = ([Sleep delay], Normal result) /\
    (10 <= delay)%Q /\ (delay < 110)%Q /\
    ((random2 env < 5 # 100)%Q ->
       status result = ping_error /\
       error_msg result = Some "Request timeout" /\
       newStatus_of result = error) /\
    ((5 # 100 <= random2 env)%Q -> status result = ping_success).
Proof.
  intros Hm H0 H1. rewrite performPing_ipv4 by assumption.
  eexists _, _. split; [reflexivity |].
  split; [lra |]. split; [lra |]. split.
  - intros Hr. apply Qlt_bool_true in Hr. rewrite Hr. auto.
  - intros Hr. apply Qlt_bool_false in Hr. rewrite Hr. auto.
Qed.

Lemma simulated_probe_failure_is_error_witness :
  exists delay result,
    performPing
      {| random1 := 1 # 2; random2 := 1 # 100; timer_late := 0;
         net := NetPending; abort_message := ""; date_now := 0 |}
      "192.168.1.1" = ([Sleep delay], Normal result) /\
    status result = ping_error.
Proof.
  destruct (simulated_probe_failure_is_error
              {| random1 := 1 # 2; random2 := 1 # 100; timer_late := 0;
                 net := NetPending; abort_message := ""; date_now := 0 |}
              "192.168.1.1" eq_refl)
    as (delay & result & Heq & _ & _ & Hfail & _).
  - simpl. lra.
  - simpl. lra.
  - exists delay, result. split; [exact Heq |].
    apply Hfail. simpl. lra.
Defined.

End ProberFacts.

(** ** The tick handler *)

Section PanelFacts.
Import PingPanel.

Lemma take_app_take {A} (n : nat) (a b : list A) :
  take n (a ++ take n b) = take n (a ++ b).
Proof.
  rewrite !take_app, take_take. f_equal. f_equal. lia.
Qed.

Lemma results_step_Result (st : State) (r : PingResult) :
  results (step st (Result r)) = slice_first 100 (r :: results st).
Proof. reflexivity. Qed.

Lemma results_steps (l : list Step) (st : State) :
  (length (results st) <= 100)%nat ->
  results (steps st l) = slice_first 100 (rev (delivered l) ++ results st).
Proof.
  revert st. induction l as [| s l IH]; intros st Hlen.
  - change (results st = slice_first 100 (results st)).
    unfold slice_first. symmetry. apply take_ge. exact Hlen.
  - change (steps st (s :: l)) with (steps (step st s) l).
    destruct s as [r |].
    + rewrite IH by (rewrite results_step_Result; apply slice_first_length).
      rewrite results_step_Result. unfold slice_first.
      rewrite take_app_take.
      change (delivered (Result r :: l)) with (r :: delivered l).
      simpl rev. rewrite <- app_assoc. reflexivity.
    + rewrite IH by exact Hlen. reflexivity.
Qed.

Lemma setResults_tick_evicts (result oldest : PingResult)
    (kept : list PingResult) :
  length (kept ++ [oldest]) = 100%nat ->
  setResults_tick result (kept ++ [oldest]) = result :: kept.
Proof.
  intros Hlen. rewrite length_app in Hlen. simpl in Hlen.
  unfold setResults_tick, slice_first.
  change (take 100 (result :: kept ++ [oldest]))
    with (result :: take 99 (kept ++ [oldest])).
  f_equal. apply take_app_length'. lia.
Qed.

Lemma setResults_tick_room (result : PingResult) (prev : list PingResult) :
  (length prev < 100)%nat ->
  setResults_tick result prev = result :: prev.
Proof.
  intros Hlen. unfold setResults_tick, slice_first.
  apply take_ge. simpl. lia.
Qed.

(** C6: after any sequence of ticks of a freshly mounted panel, [results]
    holds the most recent probe results, latest first, and never more than
    100 of them; a tick on a full history drops exactly its last (oldest)
    entry and keeps the others in order, and a tick on a shorter one drops
    nothing. *)
Theorem history_latest_first_bounded
    (initialTarget initialTitle : string) (l : list Step) :
  let st := steps (mount initialTarget initialTitle) l in
  results st = slice_first 100 (rev (delivered l)) /\
  (length (results st) <= 100)%nat /\
  (forall result kept oldest,
     results st = kept ++ [oldest] -> length (results st) = 100%nat ->
     results (step st (Result result)) = result :: kept) /\
  (forall result,
     (length (results st) < 100)%nat ->
     results (step st (Result result)) = result :: results st).
Proof.
  intros st.
  assert (Hres : results st = slice_first 100 (rev (delivered l))).
  { unfold st. rewrite results_steps by (simpl; lia).
    simpl. rewrite app_nil_r. reflexivity. }
  split; [exact Hres |]. split; [| split].
  - rewrite Hres. apply slice_first_length.
  - intros result kept oldest Hsplit Hlen.
    rewrite results_step_Result. rewrite Hsplit in Hlen |- *.
    apply (setResults_tick_evicts result oldest kept Hlen).
  - intros result Hlen. rewrite results_step_Result.
    apply setResults_tick_room. exact Hlen.
Qed.

Lemma history_latest_first_bounded_witness :
  results (steps (mount "8.8.8.8" "Google DNS")
             (Result (ok 1) :: repeat (Result (ok 2)) 99 ++ [Result (ok 3)]))
  = ok 3 :: repeat (ok 2) 99.
Proof.
  pose proof (history_latest_first_bounded "8.8.8.8" "Google DNS"
                (Result (ok 1) :: repeat (Result (ok 2)) 99)) as H.
  destruct H as (_ & _ & Hevict & _).
  change (Result (ok 1) :: repeat (Result (ok 2)) 99 ++ [Result (ok 3)])
    with ((Result (ok 1) :: repeat (Result (ok 2)) 99) ++ [Result (ok 3)]).
  unfold steps at 1. rewrite fold_left_app.
  apply (Hevict (ok 3) (repeat (ok 2) 99) (ok 1)); vm_compute; reflexivity.
Defined.

(** The interval callback of a panel whose effect last ran when [results] was
    empty always computes an average of 0. *)
Lemma avgTime_blind (st : State) (r : PingResult) :
  results_in_effect st = [] ->
  results_in_effect (step st (Result r)) = [] /\
  avgTime (stats (step st (Result r))) = 0.
Proof.
  intros Hnil. split; [exact Hnil |].
  simpl. rewrite Hnil. unfold setStats_tick. simpl.
  apply Math_round_zero_div.
Qed.

Lemma avgTime_blind_steps (rs : list PingResult) (st : State) :
  results_in_effect st = [] -> avgTime (stats st) = 0 ->
  avgTime (stats (steps st (map Result rs))) = 0.
Proof.
  revert st. induction rs as [| r rs IH]; intros st Hnil Havg.
  - exact Havg.
  - change (steps st (map Result (r :: rs)))
      with (steps (step st (Result r)) (map Result rs)).
    destruct (avgTime_blind st r Hnil) as [Hnil' Havg'].
    apply IH; assumption.
Qed.

(** C1: the average the tick handler stores is not the mean over the
    retained history.  For a freshly added target it stays 0 whatever the
    probes return: after three successful ticks of 20, 30 and 40 ms the
    stats are [sent 3, received 3, lost 0, avgTime 0], while the mean over
    the retained history is 30; and even when the effect runs again between
    the ticks the stored average is not 30. *)
Theorem avgTime_ignores_retained_history :
  (forall initialTarget initialTitle rs,
     avgTime (stats (steps (mount initialTarget initialTitle) (map Result rs))) = 0) /\
  stats (steps (mount "8.8.8.8" "Google DNS")
           [Result (ok 20); Result (ok 30); Result (ok 40)])
  = {| sent := 3; received := 3; lost := 0; avgTime := 0 |} /\
  mean_success_time
    (results (steps (mount "8.8.8.8" "Google DNS")
                [Result (ok 20); Result (ok 30); Result (ok 40)])) = 30 /\
  (forall again1 again2 : bool,
     avgTime
       (stats (steps (mount "8.8.8.8" "Google DNS")
                 ([Result (ok 20)] ++ (if again1 then [Rerun] else []) ++
                  [Result (ok 30)] ++ (if again2 then [Rerun] else []) ++
                  [Result (ok 40)])))
     <> 30).
Proof.
  split; [| split; [| split]].
  - intros initialTarget initialTitle rs.
    apply avgTime_blind_steps; reflexivity.
  - reflexivity.
  - reflexivity.
  - intros [|] [|]; vm_compute; discriminate.
Qed.

End PanelFacts.

(** ** The overall status *)

Section OverallFacts.
Import Index.

Lemma values_spec (m : gmap string PanelStatus) (s : PanelStatus) :
  In s (map_to_list m).*2 <-> exists id, m !! id = Some s.
Proof.
  rewrite <- list_elem_of_In, list_elem_of_fmap. split.
  - intros ([id s'] & -> & Hin). exists id.
    apply elem_of_map_to_list in Hin. exact Hin.
  - intros (id & Hid). exists (id, s). split; [reflexivity |].
    apply elem_of_map_to_list. exact Hid.
Qed.

Lemma some_status (m : gmap string PanelStatus) (s : PanelStatus) :
  existsb (fun s' => bool_decide (s' = s)) (map_to_list m).*2 = true
  <-> exists id, m !! id = Some s.
Proof.
  rewrite existsb_exists, <- values_spec. split.
  - intros (s' & Hin & Heq). apply bool_decide_eq_true in Heq. subst. exact Hin.
  - intros Hin. exists s. split; [exact Hin | apply bool_decide_eq_true; reflexivity].
Qed.

(** With three statuses, a set without [error] and without [offline] is all
    [online]: the last [return] of [getOverallStatus] is never reached. *)
Lemma getOverallStatus_known (m : gmap string PanelStatus) :
  getOverallStatus m <> overall_unknown.
Proof.
  unfold getOverallStatus.
  destruct (existsb _ _) eqn:He; [discriminate |].
  destruct (existsb (fun s => bool_decide (s = offline)) _) eqn:Ho; [discriminate |].
  destruct (forallb _ _) eqn:Ha; [discriminate |].
  exfalso. apply not_true_iff_false in Ha. apply Ha.
  apply forallb_forall. intros s Hin. apply bool_decide_eq_true.
  destruct s; [reflexivity | |].
  - apply not_true_iff_false in Ho. exfalso. apply Ho.
    apply existsb_exists. exists offline. split; [exact Hin |].
    apply bool_decide_eq_true. reflexivity.
  - apply not_true_iff_false in He. exfalso. apply He.
    apply existsb_exists. exists error. split; [exact Hin |].
    apply bool_decide_eq_true. reflexivity.
Qed.

(** C2: [getOverallStatus] is [overall_error] when some panel reports
    [error], else [overall_offline] when some panel reports [offline], else
    [overall_online]; it never returns [overall_unknown], and with no status
    reported yet (the empty record) it returns [overall_online]. *)
Theorem getOverallStatus_empty_is_online :
  getOverallStatus ∅ = overall_online /\
  (forall m : gmap string PanelStatus,
     ((exists id, m !! id = Some error) -> getOverallStatus m = overall_error) /\
     (~ (exists id, m !! id = Some error) ->
      (exists id, m !! id = Some offline) -> getOverallStatus m = overall_offline) /\
     (~ (exists id, m !! id = Some error) ->
      ~ (exists id, m !! id = Some offline) -> getOverallStatus m = overall_online)) /\
  (forall m : gmap string PanelStatus, getOverallStatus m <> overall_unknown).
Proof.
  split; [reflexivity |]. split; [| apply getOverallStatus_known].
  intros m. pose proof (getOverallStatus_known m) as Hknown.
  unfold getOverallStatus in *.
  pose proof (some_status m error) as He.
  pose proof (some_status m offline) as Ho.
  destruct (existsb (fun s => bool_decide (s = error)) _).
  - split; [reflexivity |].
    split; intros Hne; exfalso; apply Hne, He; reflexivity.
  - split; [intros H; apply He in H; discriminate |].
    destruct (existsb (fun s => bool_decide (s = offline)) _).
    + split; [reflexivity |].
      intros _ Hno. exfalso. apply Hno, Ho. reflexivity.
    + split; [intros _ H; apply Ho in H; discriminate |].
      intros _ _. destruct (forallb _ _); [reflexivity | contradiction].
Qed.

End OverallFacts.

(** ** The "Connection Lost" toast *)

Section NotifyFacts.
Import Index IndexNotify.

Lemma handleStatusChange_records (id : string) (status : PanelStatus) (st : State) :
  panelStatuses (handleStatusChange id status st).1 !! id = Some status.
Proof. simpl. apply lookup_insert_eq. Qed.

(** C10: [handleStatusChange] raises no "Connection Lost" toast when no status
    is recorded yet for the panel (its first report, even [offline] or
    [error]), and none when the new status is [online]; any toast it raises
    is the single "Connection Lost" toast of a panel whose recorded status
    exists, differs from the new one, and whose new status is [offline] or
    [error]. *)
Theorem connection_lost_needs_recorded_change
    (id : string) (status : PanelStatus) (st : State) :
  let toasts := (handleStatusChange id status st).2 in
  (panelStatuses st !! id = None -> toasts = []) /\
  (status = online -> toasts = []) /\
  (forall t, In t toasts ->
     exists oldStatus panel,
       panelStatuses st !! id = Some oldStatus /\
       oldStatus <> status /\
       (status = offline \/ status = error) /\
       find_panel id (panels st) = Some panel /\
       globalSoundEnabled st = true /\
       toasts = [connection_lost panel status]) /\
  (forall oldStatus panel,
     panelStatuses st !! id = Some oldStatus -> oldStatus <> status ->
     status = offline \/ status = error ->
     find_panel id (panels st) = Some panel ->
     globalSoundEnabled st = true ->
     toasts = [connection_lost panel status]).
Proof.
  cbn zeta. unfold handleStatusChange, handleStatusChange_toasts. cbn [snd].
  split; [| split; [| split]].
  - intros Hnone. rewrite Hnone. reflexivity.
  - intros ->. destruct (panelStatuses st !! id); [| reflexivity].
    destruct (bool_decide _); [| reflexivity].
    destruct (find_panel id (panels st)); reflexivity.
  - intros t Hin.
    destruct (panelStatuses st !! id) as [oldStatus |]; [| destruct Hin].
    destruct (bool_decide (oldStatus <> status)) eqn:Hne; [| destruct Hin].
    apply bool_decide_eq_true in Hne.
    destruct (find_panel id (panels st)) as [panel |]; [| destruct Hin].
    destruct (bool_decide (status = offline) || bool_decide (status = error))
      eqn:Hbad; [| destruct Hin].
    destruct (globalSoundEnabled st); [| destruct Hin].
    exists oldStatus, panel. repeat split; try assumption.
    apply orb_true_iff in Hbad.
    destruct Hbad as [H | H]; apply bool_decide_eq_true in H; auto.
  - intros oldStatus panel Hold Hne Hbad Hfind Hsound.
    rewrite Hold, Hfind, Hsound.
    rewrite bool_decide_eq_true_2 by exact Hne.
    destruct Hbad as [-> | ->]; reflexivity.
Qed.

Lemma connection_lost_needs_recorded_change_witness :
  (handleStatusChange "1" offline
     (handleStatusChange "1" online init).1).2
  = [ {| toast_title := "Connection Lost";
         toast_description := "Local Gateway (192.168.1.1) is offline";
         toast_variant := "destructive" |} ] /\
  (handleStatusChange "1" offline init).2 = [].
Proof.
  split.
  - destruct (connection_lost_needs_recorded_change "1" offline
                (handleStatusChange "1" online init).1) as (_ & _ & _ & H).
    apply (H online
             {| p_id := "1"; p_target := "192.168.1.1";
                p_title := "Local Gateway" |});
      [reflexivity | discriminate | left; reflexivity | reflexivity | reflexivity].
  - destruct (connection_lost_needs_recorded_change "1" offline init)
      as (H & _).
    apply H. reflexivity.
Defined.

End NotifyFacts.

(** ** The connectivity window *)

Section ConnectivityFacts.
Import Index IndexConnectivity.

Lemma run_snoc (st : State) (evs : list Event) (ev : Event) :
  run st (evs ++ [ev]) =
    let '(st', ts) := step (run st evs).1 ev in (st', (run st evs).2 ++ ts).
Proof. unfold run. rewrite fold_left_app. reflexivity. Qed.

Lemma fold_add (h : list Z) (a : Z) :
  fold_left (fun sum val => sum + val) h a = a + fold_left (fun sum val => sum + val) h 0.
Proof.
  revert a. induction h as [| x h IH]; intros a; simpl.
  - lia.
  - rewrite (IH (a + x)), (IH (0 + x)). lia.
Qed.

(** A window of 0/1 samples sums to its number of losses. *)
Lemma lostPings_losses (h : list Z) :
  Forall (fun x => x = 0 \/ x = 1) h -> lostPings_of h = Z.of_nat (losses h).
Proof.
  unfold lostPings_of, losses. induction 1 as [| x h Hx Hh IH]; [reflexivity |].
  simpl fold_left. rewrite fold_add, IH. rewrite filter_cons.
  destruct Hx as [-> | ->]; case_decide; try discriminate; try congruence;
    simpl length; generalize (length (filter (fun x : Z => x = 1) h));
    intros n; lia.
Qed.

Lemma newHistory_of_length (h : list Z) (status : PanelStatus) :
  length (newHistory_of h status) = Nat.min 20 (S (length h)).
Proof.
  unfold newHistory_of. rewrite slice_last_length, length_app. simpl length. lia.
Qed.

Lemma newHistory_of_bits (h : list Z) (status : PanelStatus) :
  Forall (fun x => x = 0 \/ x = 1) h ->
  Forall (fun x => x = 0 \/ x = 1) (newHistory_of h status).
Proof.
  intros Hh. unfold newHistory_of, slice_last. apply Forall_drop.
  apply Forall_app. split; [exact Hh |].
  constructor; [| constructor]. unfold sample. case_bool_decide; auto.
Qed.

(** On a full window the first (oldest) sample leaves and the new one enters
    at the end. *)
Lemma newHistory_of_full (oldest : Z) (rest : list Z) (status : PanelStatus) :
  length (oldest :: rest) = 20%nat ->
  newHistory_of (oldest :: rest) status = rest ++ [sample status].
Proof.
  intros Hlen. unfold newHistory_of, slice_last.
  rewrite length_app, Hlen. reflexivity.
Qed.

Lemma handleStatusChange_history (id : string) (status : PanelStatus) (st : State) :
  packetLossHistory (handleStatusChange id status st).1 =
    if tracked id st then newHistory_of (packetLossHistory st) status
    else packetLossHistory st.
Proof.
  unfold handleStatusChange. destruct (tracked id st); [| reflexivity].
  destruct (10 <=? _); reflexivity.
Qed.

Lemma handleStatusChange_verdict (id : string) (status : PanelStatus) (st : State) :
  internetConnected (handleStatusChange id status st).1 =
    if tracked id st
       && (10 <=? totalPings_of (newHistory_of (packetLossHistory st) status))
    then Some (isConnected_of (newHistory_of (packetLossHistory st) status))
    else internetConnected st.
Proof.
  unfold handleStatusChange. destruct (tracked id st); [| reflexivity].
  destruct (10 <=? _); reflexivity.
Qed.

Lemma window_ok_init : window_ok init.
Proof.
  unfold window_ok. simpl. repeat split; try constructor; try lia. 
Qed.

Lemma window_ok_step (st : State) (ev : Event) :
  window_ok st -> window_ok (step st ev).1.
Proof.
  intros (Hbits & Hlen & Hfew & Hmany).
  destruct ev as [now target title | id | id status |]; try (repeat split; assumption).
  unfold window_ok. cbn [step].
  rewrite handleStatusChange_history, handleStatusChange_verdict.
  destruct (tracked id st); [| repeat split; assumption].
  pose proof (newHistory_of_length (packetLossHistory st) status) as Hnew.
  unfold totalPings_of. cbn [andb].
  repeat split.
  - apply newHistory_of_bits. exact Hbits.
  - lia.
  - intros Hshort. destruct (10 <=? _) eqn:Hge; [lia |].
    apply Hfew. lia.
  - intros Hlong. destruct (10 <=? _) eqn:Hge; [reflexivity | lia].
Qed.

Lemma window_ok_run (evs : list Event) : window_ok (run init evs).1.
Proof.
  induction evs as [| ev evs IH] using rev_ind.
  - apply window_ok_init.
  - rewrite run_snoc. pose proof (window_ok_step _ ev IH) as Hstep.
    destruct (step (run init evs).1 ev). exact Hstep.
Qed.

(** The threshold: [packetLossPercentage < 10] fails exactly when the lost
    fraction of the window is at least one tenth. *)
Lemma isConnected_of_threshold (h : list Z) :
  h <> [] ->
  (isConnected_of h = false <->
   (1 # 10 <= inject_Z (lostPings_of h) / inject_Z (Z.of_nat (length h)))%Q).
Proof.
  intros Hne. unfold isConnected_of, packetLossPercentage_of, totalPings_of.
  assert (Hpos : (0 <? Z.of_nat (length h)) = true).
  { apply Z.ltb_lt. destruct h; [contradiction | simpl; lia]. }
  rewrite Hpos, Qlt_bool_false.
  set (ratio := (inject_Z (lostPings_of h) / inject_Z (Z.of_nat (length h)))%Q).
  split; intros H; lra.
Qed.

(** Modelling the percentage by an exact rational loses nothing: on every
    window the page can hold, the binary64 comparison decides the same. *)
Lemma threshold_in_doubles : threshold_agrees = true.
Proof. vm_compute. reflexivity. Qed.

(** C4: in every state the page can reach, the window holds at most 20
    samples; the verdict is unknown ([None]) while it holds fewer than 10;
    with 10 or more the verdict is "disconnected" ([Some false]) exactly when
    the lost fraction of the window is at least 1/10 and "connected"
    otherwise; a report of a tracked panel appends its sample and keeps the
    last 20, so on a full window exactly the oldest sample leaves. *)
Theorem verdict_follows_window (evs : list Event) :
  let st := (run init evs).1 in
  let h := packetLossHistory st in
  (length h <= 20)%nat /\
  ((length h < 10)%nat -> internetConnected st = None) /\
  ((10 <= length h)%nat ->
     exists connected,
       internetConnected st = Some connected /\
       (connected = false <->
        (1 # 10 <= inject_Z (Z.of_nat (losses h)) / inject_Z (Z.of_nat (length h)))%Q)) /\
  (forall id status,
     tracked id st = true ->
     packetLossHistory (handleStatusChange id status st).1
     = slice_last 20 (h ++ [sample status])) /\
  (forall id status oldest rest,
     tracked id st = true -> h = oldest :: rest -> length h = 20%nat ->
     packetLossHistory (handleStatusChange id status st).1
     = rest ++ [sample status]).
Proof.
  intros st h. destruct (window_ok_run evs) as (Hbits & Hlen & Hfew & Hmany).
  fold st in Hbits, Hlen, Hfew, Hmany. fold h in Hbits, Hlen, Hfew, Hmany.
  split; [exact Hlen |]. split; [exact Hfew |]. split; [| split].
  - intros Hlong. exists (isConnected_of h). split; [apply Hmany, Hlong |].
    rewrite <- (lostPings_losses h Hbits).
    apply isConnected_of_threshold. destruct h; [simpl in Hlong; lia | discriminate].
  - intros id status Htracked.
    rewrite handleStatusChange_history, Htracked. reflexivity.
  - intros id status oldest rest Htracked Hsplit Hfull.
    rewrite handleStatusChange_history, Htracked. fold h. rewrite Hsplit in Hfull |- *.
    apply newHistory_of_full. exact Hfull.
Qed.

Lemma verdict_follows_window_witness :
  exists connected,
    internetConnected
      (run init (gateway_reports (repeat online 9 ++ [offline]))).1
    = Some connected /\
    (connected = false <->
     (1 # 10 <=
      inject_Z (Z.of_nat (losses (packetLossHistory
         (run init (gateway_reports (repeat online 9 ++ [offline]))).1)))
      / inject_Z (Z.of_nat (length (packetLossHistory
         (run init (gateway_reports (repeat online 9 ++ [offline]))).1))))%Q).
Proof.
  apply (verdict_follows_window (gateway_reports (repeat online 9 ++ [offline]))).
  vm_compute. lia.
Defined.

(** C5 (as the code has it): removing a panel, tracked or not, leaves the
    connectivity window and the verdict as they were; nothing resets them. *)
Theorem removePanel_keeps_window (id : string) (st : State) :
  packetLossHistory (removePanel id st) = packetLossHistory st /\
  internetConnected (removePanel id st) = internetConnected st.
Proof. split; reflexivity. Qed.

(** C5 fails as stated: after ten [online] reports of the gateway panel,
    removing that panel leaves ten samples and the verdict "connected". *)
Lemma removePanel_resets_window_counterexample :
  tracked "1" after_ten_online = true /\
  find_panel "1" (panels (removePanel "1" after_ten_online)) = None /\
  packetLossHistory (removePanel "1" after_ten_online) = repeat 0 10 /\
  internetConnected (removePanel "1" after_ten_online) = Some true /\
  ~ (packetLossHistory (removePanel "1" after_ten_online) = [] /\
     internetConnected (removePanel "1" after_ten_online) = None).
Proof.
  repeat split; try reflexivity.
  intros [H _]. vm_compute in H. discriminate.
Qed.

(** [toFixed1] prints the number of tenths nearest to its argument. *)
Lemma toFixed1_nearest (x : Q) :
  let n := Qfloor (x * 10 + (1 # 2))%Q in
  toFixed1 x = pretty (n / 10) +:+ "." +:+ pretty (n mod 10) /\
  (inject_Z n - (1 # 2) <= x * 10)%Q /\ (x * 10 < inject_Z n + (1 # 2))%Q.
Proof.
  intros n. split; [reflexivity |].
  pose proof (Qfloor_le (x * 10 + (1 # 2))) as Hle.
  pose proof (Qlt_floor (x * 10 + (1 # 2))) as Hlt.
  fold n in Hle, Hlt. rewrite inject_Z_plus in Hlt.
  change (inject_Z 1) with 1%Q in Hlt. clearbody n.
  split; lra.
Qed.

Lemma captured_toasts_spec (c : Closure) (id : string) (status : PanelStatus)
    (st : State) :
  (handleStatusChange_captured c id status st).2 =
    if tracked_by c id
       && (10 <=? totalPings_of (newHistory_of (packetLossHistory st) status))
    then match c_internetConnected c with
         | Some was =>
             if negb (eqb was (isConnected_of (newHistory_of (packetLossHistory st) status)))
                && c_globalSoundEnabled c
             then [connectivity_toast
                     (isConnected_of (newHistory_of (packetLossHistory st) status))
                     (packetLossPercentage_of (newHistory_of (packetLossHistory st) status))]
             else []
         | None => []
         end
    else [].
Proof.
  unfold handleStatusChange_captured. destruct (tracked_by c id); [| reflexivity].
  destruct (10 <=? _); [| reflexivity]. cbn [andb snd].
  destruct (c_internetConnected c) as [was |]; [| reflexivity].
  destruct (negb _); [| reflexivity].
  destruct (c_globalSoundEnabled c); reflexivity.
Qed.

Lemma captured_verdict (c : Closure) (id : string) (status : PanelStatus)
    (st : State) :
  internetConnected (handleStatusChange_captured c id status st).1 =
    if tracked_by c id
       && (10 <=? totalPings_of (newHistory_of (packetLossHistory st) status))
    then Some (isConnected_of (newHistory_of (packetLossHistory st) status))
    else internetConnected st.
Proof.
  unfold handleStatusChange_captured. destruct (tracked_by c id); [| reflexivity].
  destruct (10 <=? _); reflexivity.
Qed.

Lemma captured_history (c : Closure) (id : string) (status : PanelStatus)
    (st : State) :
  packetLossHistory (handleStatusChange_captured c id status st).1 =
    if tracked_by c id then newHistory_of (packetLossHistory st) status
    else packetLossHistory st.
Proof.
  unfold handleStatusChange_captured. destruct (tracked_by c id); [| reflexivity].
  destruct (10 <=? _); reflexivity.
Qed.

(** The handler of the current render is the handler with the current
    closure. *)
Lemma handleStatusChange_is_captured (id : string) (status : PanelStatus)
    (st : State) :
  handleStatusChange id status st
  = handleStatusChange_captured (captured st) id status st.
Proof. reflexivity. Qed.

(** A handler that is out of date can raise a toast where nothing flips: the
    handler created before the flip, run after it, compares the new verdict
    with the "connected" it captured and announces the disconnection again,
    while the verdict stays "disconnected". *)
Lemma stale_handler_toasts_without_flip :
  internetConnected after_flip = Some false /\
  internetConnected
    (handleStatusChange_captured (captured before_flip) "1" offline after_flip).1
  = Some false /\
  (handleStatusChange_captured (captured before_flip) "1" offline after_flip).2
  = [ {| toast_title := "Internet Disconnected";
         toast_description := "Packet loss: 23.1%";
         toast_variant := "destructive" |} ] /\
  (handleStatusChange "1" offline after_flip).2 = [].
Proof. repeat split; reflexivity. Qed.

(** On every window the page can hold, [toFixed(1)] of the binary64
    percentage prints the tenths of the exact percentage. *)
Lemma tenths_in_doubles : tenths_agree = true.
Proof. vm_compute. reflexivity. Qed.

Lemma total_at_least_ten (h : list Z) :
  (10 <=? totalPings_of h) = true <-> (10 <= length h)%nat.
Proof. unfold totalPings_of. rewrite Z.leb_le. lia. Qed.

(** C8 (as the code has it): a report raises a connectivity toast exactly
    when the handler that runs was created with the global sound switch on
    and with a known verdict, the new window holds 10 samples or more, and
    the verdict computed from it is the opposite of the one the handler
    captured.  For a handler that is up to date (its captured verdict and
    switch are the page's) this is exactly: the switch is on and the verdict
    flips between "connected" and "disconnected"; never while the verdict
    was unknown and never when the verdict stays as it was.  There is at
    most one toast; its title names the new verdict and its description is
    the loss percentage of the new window with one decimal. *)
Theorem connectivity_toast_on_audible_flip
    (c : Closure) (id : string) (status : PanelStatus) (st : State) :
  let st' := (handleStatusChange_captured c id status st).1 in
  let toasts := (handleStatusChange_captured c id status st).2 in
  let newHistory := newHistory_of (packetLossHistory st) status in
  (toasts <> [] <->
     c_globalSoundEnabled c = true /\
     tracked_by c id = true /\ (10 <= length newHistory)%nat /\
     exists was, c_internetConnected c = Some was /\
                 internetConnected st' = Some (negb was)) /\
  (c_internetConnected c = None -> toasts = []) /\
  (c_globalSoundEnabled c = false -> toasts = []) /\
  (c_internetConnected c = internetConnected st ->
   c_globalSoundEnabled c = globalSoundEnabled st ->
   (toasts <> [] <->
      globalSoundEnabled st = true /\
      exists was, internetConnected st = Some was /\
                  internetConnected st' = Some (negb was)) /\
   (internetConnected st = None -> toasts = []) /\
   (internetConnected st' = internetConnected st -> toasts = [])) /\
  (forall t, In t toasts ->
     toasts = [t] /\
     exists now,
       internetConnected st' = Some now /\
       toast_title t = (if now then "Internet Connected"
                        else "Internet Disconnected") /\
       toast_description t =
         "Packet loss: "
         +:+ toFixed1 (packetLossPercentage_of (packetLossHistory st')) +:+ "%").
Proof.
  cbn zeta.
  rewrite captured_toasts_spec, captured_verdict, captured_history.
  pose proof (total_at_least_ten (newHistory_of (packetLossHistory st) status))
    as Hten.
  set (newHistory := newHistory_of (packetLossHistory st) status) in *.
  set (enough := (10 <= length newHistory)%nat) in *.
  set (toast := connectivity_toast (isConnected_of newHistory)
                  (packetLossPercentage_of newHistory)).
  assert (Hshown :
            toast_title toast
            = (if isConnected_of newHistory then "Internet Connected"
               else "Internet Disconnected") /\
            toast_description toast
            = "Packet loss: " +:+ toFixed1 (packetLossPercentage_of newHistory)
              +:+ "%") by (split; reflexivity).
  clearbody toast enough.
  split; [| split; [| split; [| split]]].
  - destruct (tracked_by c id), (10 <=? totalPings_of newHistory),
      (c_internetConnected c) as [[|] |], (isConnected_of newHistory),
      (c_globalSoundEnabled c); cbn [andb negb eqb];
      (split;
       [ intros H;
         first [ exfalso; apply H; reflexivity
               | split; [reflexivity |]; split; [reflexivity |];
                 split; [apply Hten; reflexivity |];
                 eexists; split; reflexivity ]
       | first [ intros _; congruence
               | intros (Hs & Ht & He & w & Hw & Hf); apply Hten in He;
                 destruct w; cbn [negb] in Hf; congruence ] ]).
  - intros ->. destruct (_ && _); reflexivity.
  - intros ->. destruct (_ && _); [| reflexivity].
    destruct (c_internetConnected c); [| reflexivity].
    rewrite andb_false_r. reflexivity.
  - intros <- <-.
    destruct (tracked_by c id), (10 <=? totalPings_of newHistory),
      (c_internetConnected c) as [[|] |], (isConnected_of newHistory),
      (c_globalSoundEnabled c); cbn [andb negb eqb];
      (split;
       [ split;
         [ intros H;
           first [ exfalso; apply H; reflexivity
                 | split; [reflexivity | eexists; split; reflexivity] ]
         | first [ intros _; congruence
                 | intros (Hs & w & Hw & Hf); destruct w; cbn [negb] in Hf;
                   congruence ] ]
       | split; intros H; first [reflexivity | congruence] ]).
  - intros t Hin.
    destruct (tracked_by c id); cbn [andb] in Hin |- *; [| destruct Hin].
    destruct (10 <=? totalPings_of newHistory); [| destruct Hin].
    destruct (c_internetConnected c) as [was |]; [| destruct Hin].
    destruct (negb _ && _); [| destruct Hin].
    destruct Hin as [<- | []]. split; [reflexivity |].
    exists (isConnected_of newHistory). split; [reflexivity |]. exact Hshown.
Qed.

Lemma connectivity_toast_on_audible_flip_witness :
  (handleStatusChange_captured (captured before_flip) "1" offline before_flip).2
  = [ {| toast_title := "Internet Disconnected";
         toast_description := "Packet loss: 16.7%";
         toast_variant := "destructive" |} ].
Proof.
  destruct (connectivity_toast_on_audible_flip (captured before_flip)
              "1" offline before_flip) as (_ & _ & _ & _ & H).
  destruct (H {| toast_title := "Internet Disconnected";
                 toast_description := "Packet loss: 16.7%";
                 toast_variant := "destructive" |}) as [Hone _].
  - vm_compute. left. reflexivity.
  - exact Hone.
Defined.

(** C8 fails as stated: with the sound switched off, the report that takes
    the verdict from "connected" to "disconnected" raises no toast. *)
Lemma muted_flip_counterexample :
  globalSoundEnabled muted_before_flip = false /\
  internetConnected muted_before_flip = Some true /\
  internetConnected (handleStatusChange "1" offline muted_before_flip).1
  = Some false /\
  (handleStatusChange "1" offline muted_before_flip).2 = [].
Proof. repeat split; reflexivity. Qed.

End ConnectivityFacts.

(** ** Which panels feed the window *)

Section AppFacts.
Import Index IndexConnectivity.

Lemma tracked_spec (id : string) (st : State) :
  tracked id st = true <->
  exists panel, find_panel id (panels st) = Some panel /\
                p_target panel = "192.168.1.1".
Proof.
  unfold tracked. destruct (find_panel id (panels st)) as [panel |].
  - rewrite String.eqb_eq. split.
    + intros H. exists panel. auto.
    + intros (panel' & Heq & Ht). injection Heq as <-. exact Ht.
  - split; [discriminate | intros (panel & Heq & _); discriminate].
Qed.

Lemma app_tick_index (id : string) (env : PingPanel.ProbeEnv) (app : App.State)
    (ps ps' : PingPanel.State) (alerts : list PingPanel.Alert)
    (newStatus : PanelStatus) :
  App.mounted app !! id = Some ps ->
  PingPanel.tick env (globalSoundEnabled (App.index app)) ps
  = Some (ps', alerts, newStatus) ->
  App.index (App.tick id env app).1
  = (handleStatusChange id newStatus (App.index app)).1.
Proof.
  intros Hm Ht. unfold App.tick. rewrite Hm, Ht.
  destruct (handleStatusChange id newStatus (App.index app)). reflexivity.
Qed.

(** C9 (as the code has it): the window is fed by address, not by id, and the
    address is the one the page recorded when the panel was added.  A report
    from any panel recorded with '192.168.1.1' appends its sample to the one
    window; a report from a panel unknown to the page or recorded with
    another address leaves the window alone; editing a panel's target never
    changes what the page recorded, so a tick of a panel recorded with the
    gateway's address feeds the window whatever target the panel probes
    now. *)
Theorem window_fed_by_recorded_address :
  (forall id status st panel,
     find_panel id (panels st) = Some panel ->
     p_target panel = "192.168.1.1" ->
     packetLossHistory (handleStatusChange id status st).1
     = slice_last 20 (packetLossHistory st ++ [sample status])) /\
  (forall id status st,
     (find_panel id (panels st) = None \/
      exists panel, find_panel id (panels st) = Some panel /\
                    p_target panel <> "192.168.1.1") ->
     packetLossHistory (handleStatusChange id status st).1
     = packetLossHistory st) /\
  (forall id s app, App.index (App.editTarget id s app) = App.index app) /\
  (forall id s env app ps ps' alerts newStatus panel,
     App.mounted (App.editTarget id s app) !! id = Some ps ->
     PingPanel.tick env (globalSoundEnabled (App.index app)) ps
     = Some (ps', alerts, newStatus) ->
     find_panel id (panels (App.index app)) = Some panel ->
     p_target panel = "192.168.1.1" ->
     packetLossHistory (App.index (App.tick id env (App.editTarget id s app)).1)
     = slice_last 20 (packetLossHistory (App.index app) ++ [sample newStatus])).
Proof.
  split; [| split; [| split]].
  - intros id status st panel Hfind Htarget.
    rewrite handleStatusChange_history.
    replace (tracked id st) with true; [reflexivity |].
    symmetry. apply tracked_spec. eauto.
  - intros id status st Hnot. rewrite handleStatusChange_history.
    replace (tracked id st) with false; [reflexivity |].
    symmetry. apply not_true_iff_false. rewrite tracked_spec.
    intros (panel & Hfind & Htarget).
    destruct Hnot as [Hnone | (panel' & Hfind' & Hother)]; congruence.
  - reflexivity.
  - intros id s env app ps ps' alerts newStatus panel Hm Ht Hfind Htarget.
    rewrite (app_tick_index id env (App.editTarget id s app) ps ps' alerts newStatus Hm Ht).
    change (App.index (App.editTarget id s app)) with (App.index app).
    rewrite handleStatusChange_history.
    replace (tracked id (App.index app)) with true; [reflexivity |].
    symmetry. apply tracked_spec. eauto.
Qed.

Lemma window_fed_by_recorded_address_witness :
  packetLossHistory
    (handleStatusChange "1700000000000" offline
       (handleStatusChange "1" online (App.index App.two_gateways)).1).1
  = [0; 1].
Proof.
  destruct window_fed_by_recorded_address as (Hfeed & _).
  rewrite (Hfeed "1700000000000" offline
             (handleStatusChange "1" online (App.index App.two_gateways)).1
             {| p_id := "1700000000000"; p_target := "192.168.1.1";
                p_title := "Router" |});
    [| reflexivity | reflexivity].
  rewrite (Hfeed "1" online (App.index App.two_gateways)
             {| p_id := "1"; p_target := "192.168.1.1";
                p_title := "Local Gateway" |});
    [| reflexivity | reflexivity].
  reflexivity.
Defined.

(** C9 fails as stated: the first panel, edited to probe [example.org], still
    adds a sample to the window at its next tick. *)
Lemma edited_target_still_feeds_counterexample :
  PingPanel.target <$> (App.mounted App.edited_gateway !! "1")
  = Some "example.org" /\
  packetLossHistory (App.index App.edited_gateway) = [] /\
  packetLossHistory (App.index (App.tick "1" App.calm App.edited_gateway).1)
  = [0].
Proof. repeat split; vm_compute; reflexivity. Qed.

End AppFacts.

(** ** More on the panel *)

Section PanelMore.
Import PingPanel.

Lemma steps_snoc (st : State) (l : list Step) (s : Step) :
  steps st (l ++ [s]) = step (steps st l) s.
Proof. unfold steps. rewrite fold_left_app. reflexivity. Qed.

Lemma delivered_snoc (l : list Step) (s : Step) :
  delivered (l ++ [s]) =
    delivered l ++ match s with Result r => [r] | Rerun => [] end.
Proof. unfold delivered. rewrite omap_app. destruct s; reflexivity. Qed.

(** X1: the counters of a panel count every probe since it was mounted, not
    only the retained ones: [sent] is the number of results delivered,
    [received] the number of successful ones, and [lost] the number of
    failed ones, which is [sent - received]. *)
Theorem stats_count_every_probe
    (initialTarget initialTitle : string) (l : list Step) :
  let st := steps (mount initialTarget initialTitle) l in
  sent (stats st) = Z.of_nat (length (delivered l)) /\
  received (stats st)
  = Z.of_nat (length (filter (fun r => status r = ping_success) (delivered l))) /\
  lost (stats st)
  = Z.of_nat (length (filter (fun r => status r <> ping_success) (delivered l))) /\
  lost (stats st) = sent (stats st) - received (stats st).
Proof.
  cbn zeta. induction l as [| s l IH] using rev_ind.
  - repeat split.
  - rewrite steps_snoc, delivered_snoc.
    destruct IH as (Hsent & Hrecv & Hlost & Hdiff).
    destruct s as [r |].
    + set (st0 := steps (mount initialTarget initialTitle) l) in *.
      change (stats (step st0 (Result r)))
        with (setStats_tick (results_in_effect st0) r (stats st0)).
      unfold setStats_tick. cbn [sent received lost].
      rewrite !filter_app, !length_app, !filter_cons, !filter_nil.
      set (a := length (delivered l)) in *.
      set (b := length (filter (fun r => status r = ping_success) (delivered l))) in *.
      set (c := length (filter (fun r => status r <> ping_success) (delivered l))) in *.
      clearbody a b c.
      destruct (decide (status r = ping_success)) as [Hs | Hs].
      * rewrite decide_False by (intros Hn; apply Hn, Hs).
        simpl length. repeat split; lia.
      * rewrite decide_True by exact Hs.
        simpl length. repeat split; lia.
    + rewrite !app_nil_r. repeat split; assumption.
Qed.


Lemma tick_spec (env : ProbeEnv) (globalSoundEnabled : bool) (st : State) :
  tick env globalSoundEnabled st =
    if isRunning st && negb (String.eqb (target st) "")
    then match performPing env (target st) with
         | (_, Normal result) => Some (on_result globalSoundEnabled result st)
         | (_, Throw _) => None
         end
    else None.
Proof. reflexivity. Qed.

Lemma tick_none_iff
    (env : ProbeEnv) (globalSoundEnabled : bool) (st : State) :
  tick env globalSoundEnabled st = None
  <-> (isRunning st = false \/ target st = "").
Proof.
  rewrite tick_spec. split.
  - destruct (isRunning st); [| auto].
    destruct (String.eqb (target st) "") eqn:He.
    + apply String.eqb_eq in He. auto.
    + cbn [andb negb].
      destruct (performPing_normal env (target st)) as (tr & r & Hp).
      rewrite Hp. discriminate.
  - intros [Hr | Ht].
    + rewrite Hr. reflexivity.
    + rewrite Ht, andb_false_r. reflexivity.
Qed.

(** X3: [tick] does nothing exactly when the panel is paused or its target
    is empty; in every other case the probe completes normally and the panel
    is updated with its result. *)
Theorem tick_skipped_iff_paused_or_no_target
    (env : ProbeEnv) (globalSoundEnabled : bool) (st : State) :
  (tick env globalSoundEnabled st = None
   <-> (isRunning st = false \/ target st = "")) /\
  (isRunning st = true -> target st <> "" ->
   exists tr result,
     performPing env (target st) = (tr, Normal result) /\
     tick env globalSoundEnabled st
     = Some (on_result globalSoundEnabled result st)).
Proof.
  split; [apply tick_none_iff |].
  intros Hrun Htarget.
  destruct (performPing_normal env (target st)) as (tr & result & Hp).
  exists tr, result. split; [exact Hp |].
  rewrite tick_spec, Hrun, Hp.
  apply String.eqb_neq in Htarget. rewrite Htarget. reflexivity.
Qed.

(** X4: a failed probe plays a sound only when both the global and the
    panel's own sound switch are on; then it plays exactly one alert, the
    timeout alert for [offline] and the error alert for [error]; a success
    plays nothing. *)
Theorem alert_needs_both_switches
    (env : ProbeEnv) (globalSoundEnabled : bool) (st st' : State)
    (alerts : list Alert) (newStatus : PanelStatus) :
  tick env globalSoundEnabled st = Some (st', alerts, newStatus) ->
  alerts = if globalSoundEnabled && soundEnabled st
           then match newStatus with
                | online => []
                | offline => [TimeoutAlert]
                | error => [ErrorAlert]
                end
           else [].
Proof.
  rewrite tick_spec. destruct (_ && _); [| discriminate].
  destruct (performPing env (target st)) as [tr [r | e]]; [| discriminate].
  intros H. injection H as _ <- <-.
  unfold alerts_of, newStatus_of.
  destruct globalSoundEnabled, (soundEnabled st), (status r); reflexivity.
Qed.

Lemma alert_needs_both_switches_witness :
  exists st' newStatus,
    tick {| random1 := 0; random2 := 0; timer_late := 0; net := NetPending;
            abort_message := "aborted"; date_now := 0 |}
         true (mount "github.com" "GitHub")
    = Some (st', [TimeoutAlert], newStatus).
Proof.
  destruct (tick {| random1 := 0; random2 := 0; timer_late := 0;
                    net := NetPending; abort_message := "aborted";
                    date_now := 0 |}
              true (mount "github.com" "GitHub"))
    as [[[st' alerts] newStatus] |] eqn:Ht; [| discriminate Ht].
  exists st', newStatus.
  rewrite (alert_needs_both_switches _ _ _ _ _ _ Ht).
  vm_compute in Ht. injection Ht as _ _ <-. reflexivity.
Defined.

(** X5: a panel whose target is an IPv4 literal never reports [offline] and
    never plays the timeout alert: its simulated failures surface as
    [error]. *)
Theorem ipv4_target_never_offline
    (env : ProbeEnv) (globalSoundEnabled : bool) (st st' : State)
    (alerts : list Alert) (newStatus : PanelStatus) :
  matches_ipv4 (target st) = true ->
  tick env globalSoundEnabled st = Some (st', alerts, newStatus) ->
  newStatus <> offline /\ currentStatus st' <> offline /\
  ~ In TimeoutAlert alerts.
Proof.
  intros Hm. rewrite tick_spec. destruct (isRunning st && _); [| discriminate].
  rewrite performPing_ipv4 by exact Hm.
  intros H. injection H as <- <- <-.
  unfold alerts_of, newStatus_of. cbn [currentStatus].
  destruct (Qlt_bool (random2 env) (5 # 100)); cbn [status].
  - split; [congruence |]. split; [congruence |].
    destruct globalSoundEnabled, (soundEnabled st); vm_compute;
      intuition congruence.
  - split; [congruence |]. split; [congruence |].
    destruct globalSoundEnabled, (soundEnabled st); vm_compute;
      intuition congruence.
Qed.

Lemma ipv4_target_never_offline_witness :
  exists st' alerts newStatus,
    tick {| random1 := 0; random2 := 0; timer_late := 0; net := NetPending;
            abort_message := "aborted"; date_now := 0 |}
         true (mount "8.8.8.8" "Google DNS")
    = Some (st', alerts, newStatus) /\
    newStatus <> offline.
Proof.
  destruct (tick {| random1 := 0; random2 := 0; timer_late := 0;
                    net := NetPending; abort_message := "aborted";
                    date_now := 0 |}
              true (mount "8.8.8.8" "Google DNS"))
    as [[[st' alerts] newStatus] |] eqn:Ht; [| discriminate Ht].
  exists st', alerts, newStatus. split; [reflexivity |].
  apply (ipv4_target_never_offline _ true (mount "8.8.8.8" "Google DNS")
           st' alerts newStatus eq_refl Ht).
Defined.

End PanelMore.

(** ** More on the prober *)

Section ProberMore.
Import PingPanel.

Lemma append_cons (c : ascii) (a r : string) :
  String c a +:+ r = String c (a +:+ r).
Proof. reflexivity. Qed.

Lemma append_nil_r (a : string) : a +:+ "" = a.
Proof.
  induction a as [| c a IH]; [reflexivity |].
  rewrite append_cons, IH. reflexivity.
Qed.

Lemma skip_digits_split (s : string) :
  exists a, all_digits a = true /\ s = a +:+ skip_digits s.
Proof.
  induction s as [| c s IH].
  - exists "". split; reflexivity.
  - simpl. destruct (is_digit c) eqn:Hc.
    + destruct IH as (a & Ha & Hs). exists (String c a). split.
      * simpl. rewrite Hc. exact Ha.
      * rewrite append_cons. f_equal. exact Hs.
    + exists "". split; reflexivity.
Qed.

Lemma digits1_split (s r : string) :
  digits1 s = Some r -> exists a, digit_run a /\ s = a +:+ r.
Proof.
  destruct s as [| c s]; [discriminate |]. simpl.
  destruct (is_digit c) eqn:Hc; [| discriminate].
  intros H. injection H as <-.
  destruct (skip_digits_split s) as (a & Ha & Hs).
  exists (String c a). split.
  - split; [discriminate |]. simpl. rewrite Hc. exact Ha.
  - rewrite append_cons. f_equal. exact Hs.
Qed.

Lemma dot_split (s r : string) : dot s = Some r -> s = "." +:+ r.
Proof.
  destruct s as [| c s]; [discriminate |]. simpl.
  destruct c as [[] [] [] [] [] [] [] []]; try discriminate.
  intros H. injection H as <-. reflexivity.
Qed.

Lemma skip_digits_run_dot (a r : string) :
  all_digits a = true -> skip_digits (a +:+ String "." r) = String "." r.
Proof.
  induction a as [| c a IH]; intros Ha.
  - reflexivity.
  - simpl in Ha. apply andb_true_iff in Ha as [Hc Ha].
    rewrite append_cons. simpl. rewrite Hc. apply IH. exact Ha.
Qed.

Lemma skip_digits_run_end (a : string) :
  all_digits a = true -> skip_digits a = "".
Proof.
  induction a as [| c a IH]; intros Ha.
  - reflexivity.
  - simpl in Ha. apply andb_true_iff in Ha as [Hc Ha].
    simpl. rewrite Hc. apply IH. exact Ha.
Qed.

Lemma digits1_run_dot (a r : string) :
  digit_run a -> digits1 (a +:+ String "." r) = Some (String "." r).
Proof.
  intros [Hne Ha]. destruct a as [| c a]; [contradiction |].
  simpl in Ha. apply andb_true_iff in Ha as [Hc Ha].
  rewrite append_cons. simpl. rewrite Hc. f_equal.
  apply skip_digits_run_dot. exact Ha.
Qed.

Lemma digits1_run_end (a : string) : digit_run a -> digits1 a = Some "".
Proof.
  intros [Hne Ha]. destruct a as [| c a]; [contradiction |].
  simpl in Ha. apply andb_true_iff in Ha as [Hc Ha].
  simpl. rewrite Hc. f_equal. apply skip_digits_run_end. exact Ha.
Qed.

(** X6: the simulated branch is taken exactly for four non-empty runs of
    decimal digits separated by single dots, with nothing before, between or
    after; the runs are not limited to 0..255. *)
Theorem matches_ipv4_iff_four_digit_runs (s : string) :
  matches_ipv4 s = true <->
  exists a b c d,
    digit_run a /\ digit_run b /\ digit_run c /\ digit_run d /\
    s = a +:+ "." +:+ b +:+ "." +:+ c +:+ "." +:+ d.
Proof.
  unfold matches_ipv4. split.
  - destruct (digits1 s) as [s1 |] eqn:H1; [| discriminate].
    cbn [mbind option_bind].
    destruct (dot s1) as [s2 |] eqn:H2; [| discriminate].
    cbn [mbind option_bind].
    destruct (digits1 s2) as [s3 |] eqn:H3; [| discriminate].
    cbn [mbind option_bind].
    destruct (dot s3) as [s4 |] eqn:H4; [| discriminate].
    cbn [mbind option_bind].
    destruct (digits1 s4) as [s5 |] eqn:H5; [| discriminate].
    cbn [mbind option_bind].
    destruct (dot s5) as [s6 |] eqn:H6; [| discriminate].
    cbn [mbind option_bind].
    destruct (digits1 s6) as [[| ? ?] |] eqn:H7; try discriminate.
    intros _.
    apply digits1_split in H1 as (a & Ha & ->).
    apply dot_split in H2 as ->.
    apply digits1_split in H3 as (b & Hb & ->).
    apply dot_split in H4 as ->.
    apply digits1_split in H5 as (c & Hc & ->).
    apply dot_split in H6 as ->.
    apply digits1_split in H7 as (d & Hd & ->).
    exists a, b, c, d. repeat (split; [assumption |]).
    rewrite append_nil_r. reflexivity.
  - intros (a & b & c & d & Ha & Hb & Hc & Hd & ->).
    change (a +:+ "." +:+ b +:+ "." +:+ c +:+ "." +:+ d)
      with (a +:+ String "." (b +:+ String "." (c +:+ String "." d))).
    rewrite (digits1_run_dot a _ Ha). cbn [mbind option_bind dot].
    rewrite (digits1_run_dot b _ Hb). cbn [mbind option_bind dot].
    rewrite (digits1_run_dot c _ Hc). cbn [mbind option_bind dot].
    rewrite (digits1_run_end d Hd). reflexivity.
Qed.

(** X7: the URL requested for a hostname always starts with "http": a
    target that starts with "http" is requested exactly as typed, any other
    target is requested with "https://" in front of it; applying the rule
    twice changes nothing more. *)
Theorem request_url_starts_with_http (testUrl : string) :
  String.prefix "http" (request_url testUrl) = true /\
  request_url (request_url testUrl) = request_url testUrl /\
  (String.prefix "http" testUrl = true -> request_url testUrl = testUrl) /\
  (String.prefix "http" testUrl = false ->
   request_url testUrl = "https://" +:+ testUrl).
Proof.
  unfold request_url.
  destruct (String.prefix "http" testUrl) eqn:Hp.
  - cbn iota. rewrite Hp.
    split; [reflexivity |]. split; [reflexivity |].
    split; [reflexivity | discriminate].
  - change (String.prefix "http" ("https://" +:+ testUrl)) with true. cbn iota.
    split; [reflexivity |]. split; [reflexivity |].
    split; [discriminate | reflexivity].
Qed.

End ProberMore.

(** ** More on the page *)

Section IndexMore.
Import Index IndexConnectivity.

Lemma find_panel_removed (id id' : string) (l : list Panel) :
  find_panel id' (removePanel_panels id l) =
    if String.eqb id' id then None else find_panel id' l.
Proof.
  unfold find_panel, removePanel_panels.
  induction l as [| p l IH].
  - destruct (String.eqb id' id); reflexivity.
  - rewrite filter_cons. destruct (decide (p_id p <> id)) as [Hne | Heq].
    + simpl. destruct (String.eqb (p_id p) id') eqn:Hp.
      * apply String.eqb_eq in Hp. subst id'.
        apply String.eqb_neq in Hne. rewrite Hne. reflexivity.
      * exact IH.
    + assert (Hid : p_id p = id) by (destruct (decide (p_id p = id)); tauto).
      rewrite IH. simpl. destruct (String.eqb id' id) eqn:He; [reflexivity |].
      rewrite Hid, String.eqb_sym, He. reflexivity.
Qed.

Lemma removePanel_panels_unknown (id : string) (l : list Panel) :
  find_panel id l = None -> removePanel_panels id l = l.
Proof.
  unfold find_panel, removePanel_panels. induction l as [| p l IH]; intros Hf.
  - reflexivity.
  - simpl in Hf. destruct (String.eqb (p_id p) id) eqn:Hp; [discriminate |].
    apply String.eqb_neq in Hp.
    rewrite filter_cons, decide_True by exact Hp. f_equal. apply IH, Hf.
Qed.

(** X9: [removePanel] forgets exactly one id: afterwards no panel and no
    status is recorded under it, every other id resolves as before, removing
    twice is removing once, and removing an id the page does not know
    changes nothing. *)
Theorem removePanel_forgets_one_id (id : string) (st : State) :
  find_panel id (panels (removePanel id st)) = None /\
  panelStatuses (removePanel id st) !! id = None /\
  (forall id', id' <> id ->
     find_panel id' (panels (removePanel id st)) = find_panel id' (panels st) /\
     panelStatuses (removePanel id st) !! id' = panelStatuses st !! id') /\
  removePanel id (removePanel id st) = removePanel id st /\
  (find_panel id (panels st) = None -> panelStatuses st !! id = None ->
   removePanel id st = st).
Proof.
  assert (Hgone : find_panel id (panels (removePanel id st)) = None).
  { cbn [removePanel panels]. rewrite find_panel_removed, String.eqb_refl.
    reflexivity. }
  assert (Hstat : panelStatuses (removePanel id st) !! id = None).
  { apply lookup_delete_eq. }
  split; [exact Hgone |]. split; [exact Hstat |]. split; [| split].
  - intros id' Hne. split.
    + cbn [removePanel panels]. rewrite find_panel_removed.
      apply String.eqb_neq in Hne. rewrite Hne. reflexivity.
    + apply lookup_delete_ne. congruence.
  - unfold removePanel at 1. cbn [globalSoundEnabled internetConnected packetLossHistory].
    rewrite (removePanel_panels_unknown id _ Hgone).
    unfold removePanel_statuses at 1. rewrite (delete_id _ id Hstat).
    reflexivity.
  - intros Hf Hs. unfold removePanel, removePanel_statuses.
    rewrite (removePanel_panels_unknown id _ Hf), (delete_id _ id Hs).
    destruct st; reflexivity.
Qed.

Lemma find_app (f : Panel -> bool) (l k : list Panel) :
  find f (l ++ k) = match find f l with Some p => Some p | None => find f k end.
Proof.
  induction l as [| p l IH]; [reflexivity |].
  simpl. destruct (f p); [reflexivity | exact IH].
Qed.

(** X10: [addPanel] appends one panel and touches nothing else.  An id the
    page already knows keeps resolving to the earlier panel (a second panel
    with the same id is never found); a new id resolves to the new panel,
    whose target and title are taken as given, empty or not. *)
Theorem addPanel_appends_and_never_shadows
    (now target title id : string) (st : State) :
  length (panels (addPanel now target title st)) = S (length (panels st)) /\
  find_panel id (panels (addPanel now target title st)) =
    match find_panel id (panels st) with
    | Some panel => Some panel
    | None => if String.eqb now id
              then Some {| p_id := now; p_target := target; p_title := title |}
              else None
    end /\
  panelStatuses (addPanel now target title st) = panelStatuses st /\
  packetLossHistory (addPanel now target title st) = packetLossHistory st /\
  internetConnected (addPanel now target title st) = internetConnected st.
Proof.
  split; [| split; [| repeat split]].
  - cbn [addPanel panels]. unfold addPanel_panels.
    rewrite length_app. simpl. lia.
  - cbn [addPanel panels]. unfold addPanel_panels, find_panel.
    rewrite find_app. reflexivity.
Qed.

Lemma getOverallStatus_online_iff (m : gmap string PanelStatus) :
  getOverallStatus m = overall_online <->
  forall id s, m !! id = Some s -> s = online.
Proof.
  pose proof (some_status m error) as He.
  pose proof (some_status m offline) as Ho.
  pose proof (getOverallStatus_known m) as Hk.
  unfold getOverallStatus in *.
  destruct (existsb (fun s => bool_decide (s = error)) _).
  - split; [discriminate |]. intros H.
    destruct He as [He _]. destruct (He eq_refl) as [id Hid].
    apply H in Hid. discriminate.
  - destruct (existsb (fun s => bool_decide (s = offline)) _).
    + split; [discriminate |]. intros H.
      destruct Ho as [Ho _]. destruct (Ho eq_refl) as [id Hid].
      apply H in Hid. discriminate.
    + destruct (forallb _ _); [| contradiction].
      split; [| reflexivity]. intros _ id s Hs.
      destruct s; [reflexivity | |].
      * destruct Ho as [_ Ho]. discriminate Ho. eauto.
      * destruct He as [_ He]. discriminate He. eauto.
Qed.

Lemma getOverallStatus_error_iff (m : gmap string PanelStatus) :
  getOverallStatus m = overall_error <-> exists id, m !! id = Some error.
Proof.
  pose proof (some_status m error) as He.
  unfold getOverallStatus.
  destruct (existsb (fun s => bool_decide (s = error)) _).
  - split; [intros _; apply He; reflexivity | reflexivity].
  - split.
    + destruct (existsb _ _); [discriminate |].
      destruct (forallb _ _); discriminate.
    + intros H. apply He in H. discriminate.
Qed.

Lemma handleStatusChange_statuses (id : string) (status : PanelStatus) (st : State) :
  panelStatuses (handleStatusChange id status st).1
  = <[id := status]> (panelStatuses st).
Proof.
  unfold handleStatusChange. destruct (tracked id st); [| reflexivity].
  destruct (10 <=? _); reflexivity.
Qed.

(** X11: a report is recorded under its id whether or not the page still
    lists that panel, and no other entry changes.  A report of [error] makes
    the overall status [error] whatever the others are; a report of [online]
    makes it [online] as soon as every other recorded status is [online]. *)
Theorem report_drives_overall_status
    (id : string) (status : PanelStatus) (st : State) :
  let recorded := panelStatuses (handleStatusChange id status st).1 in
  recorded !! id = Some status /\
  (forall id', id' <> id -> recorded !! id' = panelStatuses st !! id') /\
  (status = error -> getOverallStatus recorded = overall_error) /\
  (status = online ->
   (forall id' s, id' <> id -> panelStatuses st !! id' = Some s -> s = online) ->
   getOverallStatus recorded = overall_online).
Proof.
  cbn zeta. rewrite handleStatusChange_statuses.
  split; [apply lookup_insert_eq |]. split; [| split].
  - intros id' Hne. apply lookup_insert_ne. congruence.
  - intros ->. apply getOverallStatus_error_iff. exists id.
    apply lookup_insert_eq.
  - intros -> Hothers. apply getOverallStatus_online_iff. intros id' s Hs.
    destruct (decide (id' = id)) as [-> | Hne].
    + rewrite lookup_insert_eq in Hs. congruence.
    + rewrite lookup_insert_ne in Hs by congruence. eapply Hothers; eassumption.
Qed.

(** X12: once a panel is removed its status no longer counts: if every other
    recorded status is [online], the overall status after the removal is
    [online], whatever the removed panel last reported. *)
Theorem removal_clears_overall_status (id : string) (st : State) :
  (forall id' s, id' <> id -> panelStatuses st !! id' = Some s -> s = online) ->
  getOverallStatus (panelStatuses (removePanel id st)) = overall_online.
Proof.
  intros Hothers. apply getOverallStatus_online_iff. intros id' s Hs.
  cbn [removePanel panelStatuses] in Hs. unfold removePanel_statuses in Hs.
  destruct (decide (id' = id)) as [-> | Hne].
  - rewrite lookup_delete_eq in Hs. discriminate.
  - rewrite lookup_delete_ne in Hs by congruence. eapply Hothers; eassumption.
Qed.

Lemma removal_clears_overall_status_witness :
  getOverallStatus
    (panelStatuses
       (removePanel "2"
          (handleStatusChange "2" offline
             (handleStatusChange "1" online init).1).1))
  = overall_online.
Proof.
  apply (removal_clears_overall_status "2").
  intros id' s Hne Hs. rewrite !handleStatusChange_statuses in Hs.
  rewrite lookup_insert_ne in Hs by congruence.
  destruct (decide (id' = "1")) as [-> | Hne1].
  - rewrite lookup_insert_eq in Hs. congruence.
  - rewrite lookup_insert_ne in Hs by congruence.
    change (panelStatuses init) with (∅ : gmap string PanelStatus) in Hs.
    rewrite lookup_empty in Hs. discriminate.
Defined.

End IndexMore.

(** ** More on the connectivity window *)

Section WindowMore.
Import Index IndexConnectivity.

Lemma run_cons_state (st : State) (ev : Event) (evs : list Event) :
  (run st (ev :: evs)).1 = (run (step st ev).1 evs).1.
Proof.
  revert st ev. induction evs as [| ev' evs IH] using rev_ind; intros st ev.
  - unfold run. simpl. destruct (step st ev). reflexivity.
  - change (ev :: evs ++ [ev']) with ((ev :: evs) ++ [ev']).
    rewrite !run_snoc, IH.
    destruct (step (run (step st ev).1 evs).1 ev'). reflexivity.
Qed.

Lemma tracked_after_report (id id' : string) (status : PanelStatus) (st : State) :
  tracked id' (handleStatusChange id status st).1 = tracked id' st.
Proof.
  unfold handleStatusChange.
  destruct (tracked id st); [destruct (10 <=? _) |]; reflexivity.
Qed.

Lemma history_after_reports (id : string) (ss : list PanelStatus) (st : State) :
  tracked id st = true ->
  packetLossHistory (run st (map (StatusChange id) ss)).1
  = fold_left newHistory_of ss (packetLossHistory st).
Proof.
  revert st. induction ss as [| s ss IH]; intros st Ht.
  - reflexivity.
  - change (map (StatusChange id) (s :: ss))
      with (StatusChange id s :: map (StatusChange id) ss).
    rewrite run_cons_state. cbn [step].
    rewrite IH by (rewrite tracked_after_report; exact Ht).
    rewrite handleStatusChange_history, Ht. reflexivity.
Qed.

Lemma slice_last_snoc {A} (n : nat) (l : list A) (x : A) :
  (0 < n)%nat ->
  slice_last n (slice_last n l ++ [x]) = slice_last n (l ++ [x]).
Proof.
  intros Hn. unfold slice_last. rewrite !length_app, length_drop. simpl length.
  destruct (decide (length l <= n)%nat) as [Hle | Hgt].
  - replace (length l - n)%nat with 0%nat by lia. rewrite drop_0.
    f_equal. lia.
  - rewrite (drop_app_le l [x]) by lia.
    rewrite (drop_app_le (drop _ l)) by (rewrite length_drop; lia).
    rewrite drop_drop. f_equal. f_equal. lia.
Qed.

Lemma fold_newHistory (ss : list PanelStatus) (s : PanelStatus) (h : list Z) :
  fold_left newHistory_of (s :: ss) h
  = slice_last 20 (h ++ map sample (s :: ss)).
Proof.
  revert s h. induction ss as [| s' ss IH] using rev_ind; intros s h.
  - reflexivity.
  - change (s :: ss ++ [s']) with ((s :: ss) ++ [s']).
    rewrite fold_left_app, IH. cbn [fold_left]. unfold newHistory_of.
    rewrite slice_last_snoc by lia. rewrite map_app, app_assoc. reflexivity.
Qed.

(** X13: the window forgets: after 20 or more consecutive reports of a
    tracked panel, the window holds exactly the samples of the last 20
    reports and the verdict is the one of those samples, whatever the window
    and the verdict were before. *)
Theorem window_is_last_twenty_reports
    (id : string) (ss : list PanelStatus) (st : State) :
  tracked id st = true -> (20 <= length ss)%nat ->
  let st' := (run st (map (StatusChange id) ss)).1 in
  packetLossHistory st' = map sample (slice_last 20 ss) /\
  internetConnected st' = Some (isConnected_of (map sample (slice_last 20 ss))).
Proof.
  intros Ht Hlen. cbn zeta.
  assert (Hhist : forall st0, tracked id st0 = true ->
            packetLossHistory (run st0 (map (StatusChange id) ss)).1
            = map sample (slice_last 20 ss)).
  { intros st0 Ht0. rewrite history_after_reports by exact Ht0.
    destruct ss as [| s ss]; [simpl in Hlen; lia |].
    rewrite fold_newHistory. unfold slice_last.
    rewrite length_app, length_map.
    rewrite drop_app_ge by lia. rewrite <- skipn_map. f_equal. lia. }
  split; [apply Hhist, Ht |].
  destruct ss as [| s ss] using rev_ind; [simpl in Hlen; lia |]. clear IHss.
  pose proof (Hhist st Ht) as Hfinal.
  rewrite map_app in Hfinal |- *. cbn [map] in Hfinal |- *.
  rewrite run_snoc in Hfinal |- *.
  set (before := (run st (map (StatusChange id) ss)).1) in *.
  assert (Htb : tracked id before = true).
  { unfold before. clear -Ht. revert st Ht.
    induction ss as [| s0 ss IH]; intros st Ht; [exact Ht |].
    change (map (StatusChange id) (s0 :: ss))
      with (StatusChange id s0 :: map (StatusChange id) ss).
    rewrite run_cons_state. apply IH. cbn [step].
    rewrite tracked_after_report. exact Ht. }
  cbn [step] in Hfinal |- *.
  destruct (handleStatusChange id s before) as [after toasts] eqn:Hstep.
  cbn [fst] in Hfinal |- *.
  assert (Hafter : after = (handleStatusChange id s before).1)
    by (rewrite Hstep; reflexivity).
  rewrite Hafter, handleStatusChange_history, Htb in Hfinal.
  rewrite Hafter, handleStatusChange_verdict, Htb, Hfinal. cbn [andb].
  unfold totalPings_of. rewrite length_map, slice_last_length.
  rewrite length_app in Hlen |- *. simpl length in Hlen |- *.
  destruct (10 <=? _) eqn:Hge; [reflexivity |].
  apply Z.leb_gt in Hge. lia.
Qed.

Lemma window_is_last_twenty_reports_witness :
  packetLossHistory
    (run muted_before_flip (map (StatusChange "1") (repeat online 20))).1
  = repeat 0 20 /\
  internetConnected
    (run muted_before_flip (map (StatusChange "1") (repeat online 20))).1
  = Some true.
Proof.
  apply (window_is_last_twenty_reports "1" (repeat online 20) muted_before_flip).
  - reflexivity.
  - simpl. lia.
Defined.

Lemma percentage_below_ten (a b : Z) :
  0 < b ->
  ((inject_Z a / inject_Z b * 100 < 10)%Q <-> 10 * a < b).
Proof.
  intros Hb.
  assert (Hy : (0 < inject_Z b)%Q)
    by (change 0%Q with (inject_Z 0); rewrite <- Zlt_Qlt; exact Hb).
  assert (Hr : (inject_Z b * (inject_Z a / inject_Z b) == inject_Z a)%Q).
  { apply Qmult_div_r. lra. }
  rewrite Zlt_Qlt, inject_Z_mult. change (inject_Z 10) with 10%Q.
  set (r := (inject_Z a / inject_Z b)%Q) in *.
  set (x := inject_Z a) in *. set (y := inject_Z b) in *. clearbody r x y.
  split; intros H; nra.
Qed.

Lemma percentage_range (a b : Z) :
  0 < b -> 0 <= a <= b ->
  (0 <= inject_Z a / inject_Z b * 100)%Q /\
  (inject_Z a / inject_Z b * 100 <= 100)%Q.
Proof.
  intros Hb [Ha1 Ha2].
  assert (Hy : (0 < inject_Z b)%Q)
    by (change 0%Q with (inject_Z 0); rewrite <- Zlt_Qlt; exact Hb).
  assert (Hr : (inject_Z b * (inject_Z a / inject_Z b) == inject_Z a)%Q).
  { apply Qmult_div_r. lra. }
  rewrite Zle_Qle in Ha1, Ha2. change (inject_Z 0) with 0%Q in Ha1.
  set (r := (inject_Z a / inject_Z b)%Q) in *.
  set (x := inject_Z a) in *. set (y := inject_Z b) in *. clearbody r x y.
  split; nra.
Qed.

Lemma isConnected_of_integer (h : list Z) :
  h <> [] ->
  (isConnected_of h = true <-> 10 * lostPings_of h < Z.of_nat (length h)).
Proof.
  intros Hne. unfold isConnected_of, packetLossPercentage_of, totalPings_of.
  assert (Hpos : 0 < Z.of_nat (length h)).
  { destruct h; [contradiction | simpl length; lia]. }
  rewrite (proj2 (Z.ltb_lt _ _) Hpos), Qlt_bool_true.
  apply percentage_below_ten. exact Hpos.
Qed.

(** X14: how many losses the verdict tolerates.  In every state the page can
    reach, with 10 or more samples the verdict is "connected" exactly when
    ten times the number of lost samples is below the number of samples: a
    first verdict on 10 samples needs all 10 reached, and a full window of
    20 tolerates one lost sample and no more. *)
Theorem verdict_tolerates_under_a_tenth (evs : list Event) :
  let st := (run init evs).1 in
  let h := packetLossHistory st in
  (10 <= length h)%nat ->
  (internetConnected st = Some true <-> (10 * losses h < length h)%nat) /\
  (length h = 10%nat -> (internetConnected st = Some true <-> losses h = 0%nat)) /\
  (length h = 20%nat -> (internetConnected st = Some true <-> (losses h <= 1)%nat)).
Proof.
  intros st h Hlong.
  destruct (window_ok_run evs) as (Hbits & _ & _ & Hmany).
  fold st in Hbits, Hmany. fold h in Hbits, Hmany.
  specialize (Hmany Hlong).
  assert (Hne : h <> []) by (destruct h; [simpl in Hlong; lia | discriminate]).
  pose proof (isConnected_of_integer h Hne) as Hint.
  rewrite (lostPings_losses h Hbits) in Hint.
  assert (Hmain : internetConnected st = Some true
                  <-> (10 * losses h < length h)%nat).
  { rewrite Hmany. split.
    - intros H. injection H as H. apply Hint in H. lia.
    - intros H. f_equal. apply Hint. lia. }
  split; [exact Hmain |]. split; intros Hl; rewrite Hmain; lia.
Qed.

Lemma verdict_tolerates_under_a_tenth_witness :
  internetConnected
    (run init (gateway_reports (offline :: repeat online 19))).1 = Some true
  <-> (losses (packetLossHistory
         (run init (gateway_reports (offline :: repeat online 19))).1) <= 1)%nat.
Proof.
  apply (verdict_tolerates_under_a_tenth
           (gateway_reports (offline :: repeat online 19))).
  - vm_compute. lia.
  - reflexivity.
Defined.

(** X15: the percentage a connectivity toast prints is the rounded share of
    lost samples: in every state the page can reach, the percentage of the
    window lies between 0 and 100, and is 0 for an empty window. *)
Theorem packetLossPercentage_in_range (evs : list Event) :
  let h := packetLossHistory (run init evs).1 in
  (0 <= packetLossPercentage_of h)%Q /\ (packetLossPercentage_of h <= 100)%Q /\
  (h = [] -> packetLossPercentage_of h = 0%Q).
Proof.
  intros h. destruct (window_ok_run evs) as (Hbits & _).
  fold h in Hbits. split; [| split].
  3: { intros ->. reflexivity. }
  all: unfold packetLossPercentage_of, totalPings_of;
    destruct (0 <? Z.of_nat (length h)) eqn:Hpos; [| lra];
    apply Z.ltb_lt in Hpos;
    rewrite (lostPings_losses h Hbits);
    apply percentage_range; [exact Hpos |];
    unfold losses; pose proof (length_filter (fun x : Z => x = 1) h);
    lia.
Qed.

End WindowMore.

(** ** The variants of the page compared *)

Section VariantFacts.
Import Index.

(** X16: the sound switch only mutes.  On the same panels and recorded
    statuses, the page with the switch raises exactly the "Connection Lost"
    toasts of the page without it while the switch is on, and none while it
    is off; both record the reported status in the same way. *)
Theorem sound_switch_only_mutes
    (id : string) (status : PanelStatus) (globalSoundEnabled : bool)
    (st : IndexPlain.State) :
  (IndexNotify.handleStatusChange id status
     (IndexPlain.with_sound globalSoundEnabled st)).2
  = (if globalSoundEnabled
     then (IndexPlain.handleStatusChange id status st).2 else []) /\
  IndexNotify.panelStatuses
    (IndexNotify.handleStatusChange id status
       (IndexPlain.with_sound globalSoundEnabled st)).1
  = IndexPlain.panelStatuses (IndexPlain.handleStatusChange id status st).1.
Proof.
  split; [| reflexivity].
  unfold IndexNotify.handleStatusChange, IndexPlain.handleStatusChange,
    IndexNotify.handleStatusChange_toasts, IndexPlain.handleStatusChange_toasts.
  cbn [snd IndexPlain.with_sound IndexNotify.panelStatuses IndexNotify.panels
       IndexNotify.globalSoundEnabled].
  destruct (IndexPlain.panelStatuses st !! id) as [oldStatus |];
    [| destruct globalSoundEnabled; reflexivity].
  destruct (bool_decide (oldStatus <> status));
    [| destruct globalSoundEnabled; reflexivity].
  destruct (find_panel id (IndexPlain.panels st));
    [| destruct globalSoundEnabled; reflexivity].
  destruct (bool_decide (status = offline) || bool_decide (status = error));
    destruct globalSoundEnabled; reflexivity.
Qed.

End VariantFacts.

(** ** The add-panel dialog *)

Section DialogFacts.
Import AddPanelButton.

(** X17: the dialog adds a panel only when both fields are filled in: then
    [onAddPanel] receives the two fields as typed and the dialog is closed and
    cleared; with an empty field nothing is added and the dialog stays as it
    is.  Every preset fills both fields, so a preset can always be
    submitted. *)
Theorem handleSubmit_requires_both_fields (st : State) :
  (target st <> "" /\ title st <> "" ->
   handleSubmit st
   = ({| isOpen := false; target := ""; title := "" |},
      Some (target st, title st))) /\
  (target st = "" \/ title st = "" -> handleSubmit st = (st, None)) /\
  Forall (fun preset =>
            handleSubmit (choosePreset preset st)
            = ({| isOpen := false; target := ""; title := "" |}, Some preset))
         presets.
Proof.
  unfold handleSubmit, truthy. split; [| split].
  - intros [Ht Hi]. apply String.eqb_neq in Ht, Hi. rewrite Ht, Hi. reflexivity.
  - intros [Ht | Hi].
    + rewrite Ht. reflexivity.
    + rewrite Hi, andb_false_r. reflexivity.
  - repeat constructor.
Qed.

End DialogFacts.

(** ** The logs of a panel *)

Section LogFacts.
Import PingPanel PanelLogs.
Variable toLocaleString : Z -> string.

Lemma results_from_mount (initialTarget initialTitle : string) (l : list Step) :
  results (steps (mount initialTarget initialTitle) l)
  = slice_first 100 (rev (delivered l)).
Proof.
  rewrite results_steps by (simpl; lia).
  change (results (mount initialTarget initialTitle)) with (@nil PingResult).
  rewrite app_nil_r. reflexivity.
Qed.

Lemma sent_from_mount (initialTarget initialTitle : string) (l : list Step) :
  sent (stats (steps (mount initialTarget initialTitle) l))
  = Z.of_nat (length (delivered l)).
Proof.
  induction l as [| s l IH] using rev_ind; [reflexivity |].
  rewrite steps_snoc, delivered_snoc. destruct s as [r |].
  - rewrite length_app. simpl length.
    change (sent (stats (step (steps (mount initialTarget initialTitle) l) (Result r))))
      with (sent (stats (steps (mount initialTarget initialTitle) l)) + 1).
    rewrite IH. lia.
  - rewrite app_nil_r. exact IH.
Qed.

(** X18: the exported log lists the most recent probes, at most 100, in the
    order they completed (oldest first), and the copied log lists the same
    probes latest first; the number of lines is the smaller of 100 and
    "Packets Sent", so the statistics block can count more probes than the
    log shows. *)
Theorem export_lists_recent_probes_oldest_first
    (initialTarget initialTitle : string) (l : list Step) :
  let st := steps (mount initialTarget initialTitle) l in
  export_detail toLocaleString st
  = map (export_line toLocaleString (target st)) (slice_last 100 (delivered l)) /\
  copyLogs_lines toLocaleString st
  = map (copy_line toLocaleString (target st)) (rev (slice_last 100 (delivered l))) /\
  Z.of_nat (length (export_detail toLocaleString st))
  = Z.min 100 (sent (stats st)).
Proof.
  cbn zeta.
  assert (Hres : results (steps (mount initialTarget initialTitle) l)
                 = rev (slice_last 100 (delivered l))).
  { rewrite results_from_mount. unfold slice_first, slice_last.
    apply firstn_rev. }
  unfold export_detail, copyLogs_lines. rewrite Hres.
  split; [| split].
  - rewrite <- map_rev, rev_involutive. reflexivity.
  - reflexivity.
  - rewrite sent_from_mount, length_rev, length_map, length_rev, slice_last_length.
    lia.
Qed.

Lemma string_forall_app (f : ascii -> bool) (a b : string) :
  string_forall f (a +:+ b) = string_forall f a && string_forall f b.
Proof.
  induction a as [| c a IH]; [reflexivity |].
  rewrite append_cons. simpl. rewrite IH, andb_assoc. reflexivity.
Qed.

Lemma string_forall_substring (f : ascii -> bool) (n : nat) (s : string) :
  string_forall f s = true -> string_forall f (String.substring 0 n s) = true.
Proof.
  revert s. induction n as [| n IH]; intros s Hs.
  - destruct s; reflexivity.
  - destruct s as [| c s]; [reflexivity |].
    simpl in Hs |- *. apply andb_true_iff in Hs as [Hc Hs].
    rewrite Hc. apply IH, Hs.
Qed.

Lemma replace_non_alnum_safe (s : string) :
  string_forall file_char (replace_non_alnum s) = true.
Proof.
  induction s as [| c s IH]; [reflexivity |].
  simpl. rewrite IH, andb_true_r. unfold file_char.
  destruct (is_alnum c) eqn:Hc; [rewrite Hc |]; reflexivity.
Qed.

Lemma replace_colons_safe (s : string) :
  string_forall iso_char s = true ->
  string_forall file_char (replace_colons s) = true.
Proof.
  induction s as [| c s IH]; [reflexivity |].
  cbn [string_forall replace_colons]. intros Hs.
  apply andb_true_iff in Hs as [Hc Hs].
  rewrite (IH Hs), andb_true_r. unfold iso_char in Hc. unfold file_char.
  revert Hc.
  destruct (Ascii.eqb c ":"%char) eqn:Hcolon; [reflexivity |].
  destruct (is_alnum c), (Ascii.eqb c "-"%char), (Ascii.eqb c "_"%char),
    (Ascii.eqb c "."%char); cbn [orb]; intros Hc;
    first [reflexivity | discriminate Hc].
Qed.

(** X19: the name of the exported file holds only letters, digits, '_', '-'
    and '.', whatever the panel's title: every other character of the title
    becomes '_' (one for one, so the length is kept and a clean title is kept
    as it is), and the colons of the time stamp become '-'. *)
Theorem export_file_name_is_safe (toISOString : string) (st : State) :
  string_forall iso_char toISOString = true ->
  string_forall file_char (exportLogs_fileName toISOString st) = true /\
  String.length (replace_non_alnum (title st)) = String.length (title st) /\
  replace_non_alnum (replace_non_alnum (title st)) = replace_non_alnum (title st) /\
  (string_forall is_alnum (title st) = true ->
   replace_non_alnum (title st) = title st).
Proof.
  intros Hiso. split; [| split; [| split]].
  - unfold exportLogs_fileName, file_timestamp.
    rewrite !string_forall_app, replace_non_alnum_safe.
    rewrite replace_colons_safe by (apply string_forall_substring, Hiso).
    reflexivity.
  - induction (title st) as [| c s IH]; [reflexivity |].
    simpl. rewrite IH. reflexivity.
  - induction (title st) as [| c s IH]; [reflexivity |].
    simpl. rewrite IH. destruct (is_alnum c) eqn:Hc; [rewrite Hc |]; reflexivity.
  - induction (title st) as [| c s IH]; [reflexivity |].
    simpl. intros H. apply andb_true_iff in H as [Hc Hs].
    rewrite Hc, (IH Hs). reflexivity.
Qed.

Lemma export_file_name_is_safe_witness :
  exportLogs_fileName "2024-05-01T10:20:30.123Z"
    (mount "8.8.8.8" "Home router (2nd floor)")
  = "Home_router__2nd_floor_-ping-logs-2024-05-01T10-20-30.txt" /\
  string_forall file_char
    (exportLogs_fileName "2024-05-01T10:20:30.123Z"
       (mount "8.8.8.8" "Home router (2nd floor)")) = true.
Proof.
  split; [reflexivity |].
  apply (export_file_name_is_safe "2024-05-01T10:20:30.123Z"
           (mount "8.8.8.8" "Home router (2nd floor)")).
  reflexivity.
Defined.


(** X21: the statistics never see the response time of the probe that just
    completed: two results with the same status leave the same counters and
    the same average. *)
Theorem stats_ignore_current_response_time
    (st : State) (r1 r2 : PingResult) :
  status r1 = status r2 ->
  stats (step st (Result r1)) = stats (step st (Result r2)).
Proof.
  intros Hs.
  change (setStats_tick (results_in_effect st) r1 (stats st)
          = setStats_tick (results_in_effect st) r2 (stats st)).
  unfold setStats_tick. rewrite Hs. reflexivity.
Qed.

Lemma stats_ignore_current_response_time_witness :
  stats (step (mount "8.8.8.8" "Google DNS") (Result (ok 20)))
  = stats (step (mount "8.8.8.8" "Google DNS") (Result (ok 4000))).
Proof.
  apply (stats_ignore_current_response_time
           (mount "8.8.8.8" "Google DNS") (ok 20) (ok 4000)).
  reflexivity.
Defined.

(** X22: pausing suspends the ticks and discards nothing: while paused a tick
    does nothing and the history and counters stay; resuming a panel that
    has a target makes the next tick probe again. *)
Theorem pause_suspends_without_discarding
    (env : ProbeEnv) (globalSoundEnabled : bool) (st : State) :
  isRunning st = true ->
  tick env globalSoundEnabled (togglePause st) = None /\
  results (togglePause st) = results st /\
  stats (togglePause st) = stats st /\
  (target st <> "" ->
   tick env globalSoundEnabled (togglePause (togglePause st)) <> None).
Proof.
  intros Hrun. split; [| split; [reflexivity | split; [reflexivity |]]].
  - apply tick_none_iff. left.
    cbn [togglePause rerun_effect isRunning]. rewrite Hrun. reflexivity.
  - intros Ht H. apply tick_none_iff in H.
    cbn [togglePause rerun_effect isRunning target] in H.
    rewrite Hrun in H. destruct H as [H | H]; [discriminate | contradiction].
Qed.

Lemma pause_suspends_without_discarding_witness :
  tick App.calm true (togglePause (mount "8.8.8.8" "Google DNS")) = None.
Proof.
  apply (pause_suspends_without_discarding App.calm true
           (mount "8.8.8.8" "Google DNS")).
  reflexivity.
Defined.

End LogFacts.
